(** * ADS-B_GPS_TrinoDB_Analysis.py: the windowed extraction pipeline

    A shallow embedding of [src/ADS-B_GPS_TrinoDB_Analysis.py] and the
    properties of its day-by-day loop, its statement texts, its column
    projection and its file names.

    The script talks to three libraries (the Trino DB-API cursor, pandas,
    geopy), to the file system, and to the local time zone and the C
    library of the process (through [timestamp()] and [strftime]).  What
    those return is not decided by the script, so it is gathered in a
    record [World] of oracles; everything the
    script itself does (the loop, the f-strings, the try/except structure,
    the order of the calls) is written out as functions over an explicit
    [State]. *)

From Stdlib Require Import ZArith List String Ascii Bool Lia Floats.
From Stdlib Require Import DecimalString DecimalPos DecimalZ.
Import ListNotations.

Open Scope string_scope.
Open Scope list_scope.
Open Scope Z_scope.

(* ================================================================== *)
(** * Python values, exceptions and the effect monad *)

Module Py.

(** An exception object: its class name and its message.  The message of
    a KeyError is the label it names (Python adds quotes around it, and
    pandas names every absent label of a selection, not only the first). *)
Record exn : Type := Exn { exn_class : string; exn_msg : string }.

Definition KeyError (m : string) : exn := Exn "KeyError" m.
Definition ValueError (m : string) : exn := Exn "ValueError" m.
Definition TypeError (m : string) : exn := Exn "TypeError" m.
Definition OverflowError (m : string) : exn := Exn "OverflowError" m.

(** The result of running a piece of the script: a value, an exception on
    its way up, or [Timeout] when the fuel of the [while] loop ran out. *)
Inductive res (A : Type) : Type :=
| Ok (a : A)
| Raise (e : exn)
| Timeout.
Arguments Ok {A} a.
Arguments Raise {A} e.
Arguments Timeout {A}.

(** [str(n)] of a Python [int], as the f-strings of the script render it. *)
Definition str_int (z : Z) : string := NilZero.string_of_int (Z.to_int z).

Definition LF : string := String (ascii_of_nat 10) EmptyString.


(** Cells of a result set. *)
Inductive value : Type :=
| VNone
| VInt (z : Z)
| VFloat (x : float)
| VStr (s : string).

(** What [row[label]] evaluates to on a pandas Series: the cell when the
    label occurs once, a sub-Series when it occurs several times. *)
Inductive item : Type :=
| Scalar (v : value)
| SeriesOf (vs : list value).

End Py.
Import Py.

(* ================================================================== *)
(** * [datetime] and [timedelta]

    The script builds its dates with [datetime(y, m, d)] and moves them with
    [timedelta(days=1)]: every microsecond field is zero, and the embedding
    keeps whole seconds.  A [datetime] is the number of seconds since the
    start of proleptic Gregorian ordinal day 0 (so that 0001-01-01T00:00:00
    is [86400]); a [timedelta] is a number of seconds. *)

Module Datetime.

Definition datetime := Z.
Definition timedelta := Z.

Definition SECONDS_PER_DAY : Z := 86400.
Definition MAXORDINAL : Z := 3652059.   (* date(9999, 12, 31).toordinal() *)

(** A representable [datetime]: ordinal day in [1 .. MAXORDINAL]. *)
Definition dt_valid (t : datetime) : Prop :=
  SECONDS_PER_DAY <= t < (MAXORDINAL + 1) * SECONDS_PER_DAY.

Definition dt_validb (t : datetime) : bool :=
  (SECONDS_PER_DAY <=? t) && (t <? (MAXORDINAL + 1) * SECONDS_PER_DAY).

(** [datetime.__add__]: the sum, or [None] for the OverflowError that
    Python raises when the resulting day leaves [1 .. MAXORDINAL]. *)
Definition dt_add (t : datetime) (d : timedelta) : option datetime :=
  if dt_validb (t + d) then Some (t + d) else None.

Definition is_leap (y : Z) : bool :=
  (y mod 4 =? 0) && (negb (y mod 100 =? 0) || (y mod 400 =? 0)).

Definition days_before_year (y : Z) : Z :=
  let y1 := y - 1 in y1 * 365 + y1 / 4 - y1 / 100 + y1 / 400.

(** The month tables of CPython's [datetime]; index 0 is a placeholder. *)
Definition DAYS_IN_MONTH : list Z :=
  [-1; 31; 28; 31; 30; 31; 30; 31; 31; 30; 31; 30; 31].

Definition DAYS_BEFORE_MONTH : list Z :=
  [-1; 0; 31; 59; 90; 120; 151; 181; 212; 243; 273; 304; 334].

Definition days_before_month (y m : Z) : Z :=
  nth (Z.to_nat m) DAYS_BEFORE_MONTH 0
  + (if (2 <? m) && is_leap y then 1 else 0).

Definition ymd2ord (y m d : Z) : Z :=
  days_before_year y + days_before_month y m + d.

(** [datetime(y, m, d)]: midnight of that day. *)
Definition datetime_ymd (y m d : Z) : datetime :=
  ymd2ord y m d * SECONDS_PER_DAY.

(** [timedelta(days=n)]. *)
Definition timedelta_days (n : Z) : timedelta := n * SECONDS_PER_DAY.

(** CPython's [_ord2ymd]: ordinal day to (year, month, day). *)
Definition ord2ymd (n0 : Z) : Z * Z * Z :=
  let n := n0 - 1 in
  let n400 := n / 146097 in
  let n := n mod 146097 in
  let n100 := n / 36524 in
  let n := n mod 36524 in
  let n4 := n / 1461 in
  let n := n mod 1461 in
  let n1 := n / 365 in
  let n := n mod 365 in
  let year := n400 * 400 + 1 + n100 * 100 + n4 * 4 + n1 in
  if (n1 =? 4) || (n100 =? 4) then (year - 1, 12, 31)
  else
    let leapyear := (n1 =? 3) && (negb (n4 =? 24) || (n100 =? 3)) in
    let month := Z.shiftr (n + 50) 5 in
    let preceding :=
      nth (Z.to_nat month) DAYS_BEFORE_MONTH 0
      + (if (2 <? month) && leapyear then 1 else 0) in
    if n <? preceding then
      let month' := month - 1 in
      let preceding' :=
        preceding - (nth (Z.to_nat month') DAYS_IN_MONTH 0
                     + (if (month' =? 2) && leapyear then 1 else 0)) in
      (year, month', n - preceding' + 1)
    else (year, month, n - preceding + 1).

(** Left padding with zeros to a width, as [%02d] and [%04d] do. *)
Fixpoint zeros (k : nat) : string :=
  match k with O => EmptyString | S k' => String "0" (zeros k') end.

Definition zfill (width : nat) (s : string) : string :=
  (zeros (width - String.length s) ++ s)%string.

(** [t.strftime('%Y-%m-%d')].  The month and the day have two digits; the
    year is printed as the C library of the platform prints [%Y]: padded
    with zeros to four digits, or as it is (so that year 999 gives
    [0999-12-31] on the one and [999-12-31] on the other). *)
Definition strftime_Ymd (year_zero_padded : bool) (t : datetime) : string :=
  let '(y, m, d) := ord2ymd (t / SECONDS_PER_DAY) in
  ((if year_zero_padded then zfill 4 (str_int y) else str_int y)
   ++ "-" ++ zfill 2 (str_int m) ++ "-" ++ zfill 2 (str_int d))%string.

(** Seconds from ordinal day 0 to 1970-01-01T00:00:00. *)
Definition EPOCH : Z := 719163 * SECONDS_PER_DAY.

(** [int(t.timestamp())] of a naive [datetime] is the business of the local
    zone of the process, which the script does not choose: it is an answer
    of the world (see [local_timestamp] below).  Two zones to compute
    with follow.

    A zone of fixed offset (seconds east of UTC), read as CPython reads it:
    the wall-clock reading is taken as local time, and the search for the
    instant looks one day back and at the reading itself, so that a
    [datetime] of the first day of year 1, or one whose local reading
    leaves the years 1 to 9999, is a ValueError. *)
Definition fixed_offset_timestamp (offset : Z) (t : datetime) : exn + Z :=
  if (t - SECONDS_PER_DAY <? SECONDS_PER_DAY) || (t + offset <? SECONDS_PER_DAY)
  then inl (ValueError "year 0 is out of range")
  else if (MAXORDINAL + 1) * SECONDS_PER_DAY <=? t + offset
  then inl (ValueError "year 10000 is out of range")
  else inr (t - EPOCH - offset).


End Datetime.
Import Datetime.

(* ================================================================== *)
(** * pandas: the frame operations the script uses

    A frame is its column labels and its rows, each row positional and as
    long as the label list.  Labels may repeat (a result set may carry the
    same column name twice), and pandas then answers a label with every
    column that bears it; the operations below keep that behaviour. *)

Module Pandas.

Record DataFrame : Type := mkFrame {
  columns : list string;
  rows : list (list value)
}.

(** [pd.DataFrame(rows, columns=columns)] on a list of row tuples: no rows
    give the empty frame with those labels; otherwise short rows are padded
    with None up to the longest row, and the width must equal the number of
    labels (ValueError otherwise). *)
Definition width (data : list (list value)) : nat :=
  fold_right (fun r k => Nat.max (List.length r) k) O data.

Definition pad (k : nat) (r : list value) : list value :=
  r ++ repeat VNone (k - List.length r).

Definition DataFrame_new (data : list (list value)) (cols : list string)
  : exn + DataFrame :=
  match data with
  | [] => inr (mkFrame cols [])
  | _ =>
      if Nat.eqb (width data) (List.length cols)
      then inr (mkFrame cols (map (pad (width data)) data))
      else inl (ValueError "columns passed do not match the width of the data")
  end.

(** Every cell of [row] whose column bears [label], in column order. *)
Definition lookup_all (cols : list string) (row : list value) (label : string)
  : list value :=
  map snd (filter (fun p => String.eqb (fst p) label) (combine cols row)).

(** [row[label]] on a row Series. *)
Definition getitem (cols : list string) (row : list value) (label : string)
  : exn + item :=
  match lookup_all cols row label with
  | [] => inl (KeyError label)
  | [v] => inr (Scalar v)
  | vs => inr (SeriesOf vs)
  end.

(** What [df.apply(f, axis=1)] hands back when [f] returns scalars: a Series
    with one entry per row, or a copy of the frame itself (see
    [apply_axis1]). *)
Inductive applied : Type :=
| AppliedSeries (xs : list float)
| AppliedCopy.

Fixpoint apply_rows (f : list value -> exn + float) (rs : list (list value))
  : exn + list float :=
  match rs with
  | [] => inr []
  | r :: rs' =>
      match f r with
      | inl e => inl e
      | inr x =>
          match apply_rows f rs' with
          | inl e => inl e
          | inr xs => inr (x :: xs)
          end
      end
  end.

(** The row pandas probes [f] with when the frame has no rows or no
    columns: one NaN per column. *)
Definition nan_row (cols : list string) : list value :=
  map (fun _ => VFloat PrimFloat.nan) cols.

(** [df.apply(f, axis=1)].  On a frame with rows and columns, [f] is run on
    each row in turn and the first exception ends the call.  On a frame
    without rows or without columns ([apply_empty_result]) [f] is probed on
    the NaN row: when the probe returns, the result is a Series with that
    answer for every row (the empty Series when there are no rows); when
    it raises, the exception is dropped and the result is a copy of the
    frame. *)
Definition apply_axis1 (f : list string -> list value -> exn + float)
  (df : DataFrame) : exn + applied :=
  match rows df, columns df with
  | [], _ | _, [] =>
      match f (columns df) (nan_row (columns df)) with
      | inr x => inr (AppliedSeries (map (fun _ => x) (rows df)))
      | inl _ => inr AppliedCopy
      end
  | _, _ =>
      match apply_rows (f (columns df)) (rows df) with
      | inl e => inl e
      | inr xs => inr (AppliedSeries xs)
      end
  end.

Definition has_label (cols : list string) (label : string) : bool :=
  existsb (String.eqb label) cols.

Definition count_label (cols : list string) (label : string) : nat :=
  List.length (filter (String.eqb label) cols).

(** Row-wise assignment of a Series to the columns labelled [label]. *)
Definition set_cells (cols : list string) (label : string)
  (row : list value) (x : float) : list value :=
  map (fun p => if String.eqb (fst p) label then VFloat x else snd p)
      (combine cols row).

Fixpoint zip_with {A B C : Type} (f : A -> B -> C) (xs : list A) (ys : list B)
  : list C :=
  match xs, ys with
  | x :: xs', y :: ys' => f x y :: zip_with f xs' ys'
  | _, _ => []
  end.

(** [df[label] = v] for what [apply_axis1] returned on [df].  A Series
    replaces every column that bears the label, or becomes a new last
    column.  The copy of the frame ([_set_item_frame_value]) must have as
    many columns as the label has in [df]; for a new label it must have
    exactly one column, which then becomes the new last column. *)
Definition setitem (df : DataFrame) (label : string) (v : applied)
  : exn + DataFrame :=
  match v with
  | AppliedSeries xs =>
      if has_label (columns df) label
      then inr (mkFrame (columns df)
                        (zip_with (set_cells (columns df) label) (rows df) xs))
      else inr (mkFrame (columns df ++ [label])
                        (zip_with (fun r x => r ++ [VFloat x]) (rows df) xs))
  | AppliedCopy =>
      if has_label (columns df) label
      then if Nat.eqb (count_label (columns df) label)
                      (List.length (columns df))
           then inr df
           else inl (ValueError "Columns must be same length as key")
      else match columns df with
           | [] =>
               inl (ValueError
                      "Cannot set a DataFrame without columns to a column")
           | [_] =>
               inr (mkFrame (columns df ++ [label])
                            (map (fun r => r ++ firstn 1 r) (rows df)))
           | _ =>
               inl (ValueError
                      "Cannot set a DataFrame with multiple columns to a single column")
           end
  end.

Definition missing_labels (cols labels : list string) : list string :=
  filter (fun l => negb (has_label cols l)) labels.

(** [df[labels]]: KeyError when a label is absent (here naming the first
    such label); otherwise, for each label in turn, every column that
    bears it. *)
Definition select (df : DataFrame) (labels : list string) : exn + DataFrame :=
  match missing_labels (columns df) labels with
  | [] =>
      inr (mkFrame
             (flat_map (fun l => filter (String.eqb l) (columns df)) labels)
             (map (fun r => flat_map (lookup_all (columns df) r) labels)
                  (rows df)))
  | m :: _ => inl (KeyError m)
  end.

End Pandas.
Import Pandas.

(* ================================================================== *)
(** * The world outside the script, and the state of a run *)

Module Run.

(** The answers of the libraries and of the file system.  The answers of
    the cursor may depend on every statement submitted so far, those of the
    file system on every file written so far. *)
Record World : Type := mkWorld {
  (** [int(t.timestamp())] of a naive [datetime], as the local zone of the
      process answers it: the epoch seconds, or the exception raised *)
  local_timestamp : datetime -> exn + Z;
  (** whether [%Y] of the platform pads the year to four digits *)
  year_zero_padded : bool;
  (** [connect(...)] and [conn.cursor()]: [Some e] when they raise *)
  connect : option exn;
  (** [cursor.execute(stmt)] after the statements [history] *)
  cursor_execute : list string -> string -> option exn;
  (** [cursor.fetchall()]; the history includes the statement just run *)
  cursor_fetchall : list string -> exn + list (list value);
  (** [cursor.description]: the column names, or [None] *)
  cursor_description : list string -> option (list string);
  (** [geodesic((a, b), (c, d)).meters] *)
  geodesic : item * item -> item * item -> exn + float;
  (** [with pd.ExcelWriter(name, mode='w') as writer: df.to_excel(...)] *)
  excel_write : list (string * DataFrame) -> string -> DataFrame -> option exn;
  cursor_close : list string -> option exn;
  conn_close : list string -> option exn
}.

Inductive level : Type := INFO | ERROR.

(** What a run has done so far.  [written] lists the files whose [with]
    block completed, oldest first; what a failed ExcelWriter may leave on
    disk is not the script's doing and is not recorded. *)
Record State : Type := mkState {
  log : list (level * string);
  stdout : list string;
  submitted : list string;
  written : list (string * DataFrame);
  cursor_closed : bool;
  conn_closed : bool
}.

Definition initial : State := mkState [] [] [] [] false false.

(** A piece of a program over a state [S]: from a state to a result and
    a state.  [M] is what the script runs in; the loop of [main] is also
    run over a list of passes, to read off which windows it visits. *)
Definition StateM (S A : Type) : Type := S -> res A * S.

Definition M (A : Type) : Type := StateM State A.

Definition ret {S A : Type} (a : A) : StateM S A := fun s => (Ok a, s).

Definition bind {S A B : Type} (c : StateM S A) (k : A -> StateM S B)
  : StateM S B :=
  fun s =>
    match c s with
    | (Ok a, s') => k a s'
    | (Raise e, s') => (Raise e, s')
    | (Timeout, s') => (Timeout, s')
    end.

Definition raise {S A : Type} (e : exn) : StateM S A :=
  fun s => (Raise e, s).

(** [try: c  except Exception as e: h e]. *)
Definition try_except {S A : Type} (c : StateM S A) (h : exn -> StateM S A)
  : StateM S A :=
  fun s =>
    match c s with
    | (Raise e, s') => h e s'
    | r => r
    end.

(** A library call that returns or raises without touching the state. *)
Definition lift {S A : Type} (r : exn + A) : StateM S A :=
  match r with inl e => raise e | inr a => ret a end.

Notation "x <- c1 ;; c2" := (bind c1 (fun x => c2))
  (at level 61, c1 at next level, right associativity).
Notation "c1 ;; c2" := (bind c1 (fun _ => c2))
  (at level 61, right associativity).

Definition logging_info (msg : string) : M unit :=
  fun s => (Ok tt, mkState (log s ++ [(INFO, msg)]) (stdout s) (submitted s)
                           (written s) (cursor_closed s) (conn_closed s)).

Definition logging_error (msg : string) : M unit :=
  fun s => (Ok tt, mkState (log s ++ [(ERROR, msg)]) (stdout s) (submitted s)
                           (written s) (cursor_closed s) (conn_closed s)).

Definition print (msg : string) : M unit :=
  fun s => (Ok tt, mkState (log s) (stdout s ++ [msg]) (submitted s)
                           (written s) (cursor_closed s) (conn_closed s)).

Section WithWorld.

Variable w : World.

Definition execute (stmt : string) : M unit :=
  fun s =>
    let s' := mkState (log s) (stdout s) (submitted s ++ [stmt])
                      (written s) (cursor_closed s) (conn_closed s) in
    match cursor_execute w (submitted s) stmt with
    | Some e => (Raise e, s')
    | None => (Ok tt, s')
    end.

Definition fetchall : M (list (list value)) :=
  fun s => lift (cursor_fetchall w (submitted s)) s.

(** [[desc[0] for desc in cursor.description]]: iterating None is a
    TypeError. *)
Definition description_names : M (list string) :=
  fun s =>
    match cursor_description w (submitted s) with
    | Some names => (Ok names, s)
    | None => (Raise (TypeError "'NoneType' object is not iterable"), s)
    end.

Definition to_excel (name : string) (df : DataFrame) : M unit :=
  fun s =>
    match excel_write w (written s) name df with
    | Some e => (Raise e, s)
    | None =>
        (Ok tt, mkState (log s) (stdout s) (submitted s)
                        (written s ++ [(name, df)])
                        (cursor_closed s) (conn_closed s))
    end.

Definition close_cursor : M unit :=
  fun s =>
    match cursor_close w (submitted s) with
    | Some e => (Raise e, s)
    | None =>
        (Ok tt, mkState (log s) (stdout s) (submitted s) (written s)
                        true (conn_closed s))
    end.

Definition close_conn : M unit :=
  fun s =>
    match conn_close w (submitted s) with
    | Some e => (Raise e, s)
    | None =>
        (Ok tt, mkState (log s) (stdout s) (submitted s) (written s)
                        (cursor_closed s) true)
    end.

End WithWorld.

End Run.
Import Run.

(* ================================================================== *)
(** * The script *)

Module Script.

(** The module-level variables [start_date], [end_date] and [delta]. *)
Record Config : Type := mkConfig {
  start_date : datetime;
  end_date : datetime;
  delta : timedelta
}.

(** The values the script assigns to them. *)
Definition repo_config : Config :=
  mkConfig (datetime_ymd 2023 1 1) (datetime_ymd 2024 1 1) (timedelta_days 1).

Definition connect_to_database (w : World) : M unit :=
  match connect w with
  | None => ret tt
  | Some e =>
      logging_error ("Failed to connect to the database: " ++ exn_msg e) ;;
      raise e
  end.

(** [calculate_distance(row)]: the four cells are read in the order the
    tuple expressions name them, then handed to [geodesic]. *)
Definition calculate_distance (w : World) (cols : list string)
  (row : list value) : exn + float :=
  match getitem cols row "previous_latitude" with
  | inl e => inl e
  | inr plat =>
  match getitem cols row "previous_longitude" with
  | inl e => inl e
  | inr plon =>
  match getitem cols row "next_latitude" with
  | inl e => inl e
  | inr nlat =>
  match getitem cols row "next_longitude" with
  | inl e => inl e
  | inr nlon => geodesic w (plat, plon) (nlat, nlon)
  end end end end.

(** The label list of the final [df[[...]]]. *)
Definition output_columns : list string :=
  [ "icao24"; "callsign"; "null_start_time"; "null_end_time";
    "time_of_previous_not_null_coords"; "time_of_next_not_null_coords";
    "previous_latitude"; "previous_longitude"; "next_latitude";
    "next_longitude"; "between_coords_distance_m"; "null_duration_seconds";
    "between_coords_duration_seconds"; "avg_nic"; "min_nic"; "max_nic" ].

(** The two statements under "Calculate distance and rearrange columns":
    [df['between_coords_distance_m'] = df.apply(calculate_distance, axis=1)]
    and [df = df[[...]]]. *)
Definition ResultProjector (w : World) (df : DataFrame) : exn + DataFrame :=
  match apply_axis1 (calculate_distance w) df with
  | inl e => inl e
  | inr dist =>
      match setitem df "between_coords_distance_m" dist with
      | inl e => inl e
      | inr df' => select df' output_columns
      end
  end.

Definition prepared_statement : string := " ".

Definition execute_statement (current_unix_time next_unix_time : Z) : string :=
  LF ++ "            EXECUTE flight_analysis USING "
     ++ str_int current_unix_time ++ ", " ++ str_int next_unix_time
     ++ LF ++ "        ".

(** The f-string of the file name, over the four variables it reads. *)
Definition general_file_name (w : World)
  (current_unix_time next_unix_time : Z) (current_date next_date : datetime)
  : string :=
  str_int current_unix_time ++ "-" ++ str_int next_unix_time ++ "_"
  ++ strftime_Ymd (year_zero_padded w) current_date ++ "_to_"
  ++ strftime_Ymd (year_zero_padded w) next_date ++ ".xlsx".

(** The [try] block of one pass of the loop. *)
Definition window_try (w : World) (current_date next_date : datetime)
  (current_unix_time next_unix_time : Z) : M unit :=
  execute w (execute_statement current_unix_time next_unix_time) ;;
  rows <- fetchall w ;;
  columns <- description_names w ;;
  df <- lift (DataFrame_new rows columns) ;;
  df <- lift (ResultProjector w df) ;;
  to_excel w (general_file_name w current_unix_time next_unix_time
                                current_date next_date) df ;;
  logging_info ("Data written to "
                ++ general_file_name w current_unix_time next_unix_time
                                     current_date next_date) ;;
  print ("Data written to "
         ++ general_file_name w current_unix_time next_unix_time
                              current_date next_date).

(** The [try] statement of one pass: the block and its handler. *)
Definition window_body (w : World) (current_date next_date : datetime)
  (current_unix_time next_unix_time : Z) : M unit :=
  try_except
    (window_try w current_date next_date current_unix_time next_unix_time)
    (fun e =>
       logging_error ("Failed during SQL execution or file operation: "
                      ++ exn_msg e)).

(** [while current_date < end_date: ...], with fuel for the passes.  The
    head of a pass stands before the [try]: the sum [current_date + delta]
    and the two calls of [timestamp()], in that order; what they raise
    leaves the loop.  The [try] statement is the parameter [body], so that
    the same loop can be run with the body of [main] and with a body that
    only records the pass. *)
Fixpoint window_loop {St : Type} (w : World) (cfg : Config) (fuel : nat)
  (body : datetime -> datetime -> Z -> Z -> StateM St unit)
  (current_date : datetime) : StateM St unit :=
  match fuel with
  | O => fun s => (Timeout, s)
  | S fuel' =>
      if current_date <? end_date cfg then
        match dt_add current_date (delta cfg) with
        | None => raise (OverflowError "date value out of range")
        | Some next_date =>
            current_unix_time <- lift (local_timestamp w current_date) ;;
            next_unix_time <- lift (local_timestamp w next_date) ;;
            body current_date next_date current_unix_time next_unix_time ;;
            window_loop w cfg fuel' body next_date
        end
      else ret tt
  end.

(** The closing block at the end of [main]. *)
Definition cleanup (w : World) : M unit :=
  try_except
    (close_cursor w ;; close_conn w)
    (fun e =>
       logging_error ("Failed to close database connection: " ++ exn_msg e)).

(** [main()].  An [except] block that ends in [return] ends the run with
    whatever the block left behind. *)
Definition main (w : World) (cfg : Config) (fuel : nat) : M unit :=
  fun s =>
    match (connect_to_database w ;;
           logging_info "Database connection established successfully.") s with
    | (Raise e, s1) =>
        logging_error ("Could not establish database connection: "
                       ++ exn_msg e) s1
    | (Timeout, s1) => (Timeout, s1)
    | (Ok _, s1) =>
        match (execute w prepared_statement ;;
               logging_info
                 "SQL statement prepared and executed successfully.") s1 with
        | (Raise e, s2) =>
            (logging_error ("Failed to prepare the SQL statement: "
                            ++ exn_msg e) ;;
             close_cursor w ;;
             close_conn w) s2
        | (Timeout, s2) => (Timeout, s2)
        | (Ok _, s2) =>
            (window_loop w cfg fuel (window_body w) (start_date cfg) ;;
             cleanup w) s2
        end
    end.

(** ** Vocabulary of the properties *)

(** One pass of the loop: the two dates and the two epoch values its head
    computed. *)
Record pass : Type := mkPass {
  pass_current_date : datetime;
  pass_next_date : datetime;
  pass_current_unix_time : Z;
  pass_next_unix_time : Z
}.

(** The body that only records the pass. *)
Definition record_pass (current_date next_date : datetime)
  (current_unix_time next_unix_time : Z) : StateM (list pass) unit :=
  fun ps =>
    (Ok tt,
     ps ++ [mkPass current_date next_date current_unix_time next_unix_time]).

(** The passes of the loop of [main]: the loop itself, run with the
    recording body.  [Ok] with all passes when it comes to its end;
    otherwise the exception of the head that raised, or [Timeout]. *)
Definition window_iterator (w : World) (cfg : Config) (fuel : nat)
  (current_date : datetime) : res (list pass) :=
  match window_loop w cfg fuel record_pass current_date [] with
  | (Ok _, ps) => Ok ps
  | (Raise e, _) => Raise e
  | (Timeout, _) => Timeout
  end.

(** The passes the loop made, whatever its outcome: those before the
    head that raised, or before the fuel ran out. *)
Definition passes_made (w : World) (cfg : Config) (fuel : nat)
  (current_date : datetime) : list pass :=
  snd (window_loop w cfg fuel record_pass current_date []).

(** The window of a pass. *)
Definition window_of (p : pass) : datetime * datetime :=
  (pass_current_date p, pass_next_date p).

(** The two calls of [timestamp()] returned the epoch values of the pass. *)
Definition stamped (w : World) (p : pass) : Prop :=
  local_timestamp w (pass_current_date p) = inr (pass_current_unix_time p) /\
  local_timestamp w (pass_next_date p) = inr (pass_next_unix_time p).

(** ceil((end - start) / stride), for a positive stride. *)
Definition window_count (cfg : Config) : Z :=
  (end_date cfg - start_date cfg + delta cfg - 1) / delta cfg.

(** A configuration whose date sums stay in range: the stride is positive,
    the start is a [datetime], and so is the end of the last window (every
    sum [current_date + delta] the loop forms is then one too). *)
Definition valid_config (cfg : Config) : Prop :=
  0 < delta cfg /\
  dt_valid (start_date cfg) /\
  dt_valid (start_date cfg + window_count cfg * delta cfg).

(** [timestamp()] returns on every bound of a window of the range. *)
Definition stamps_return (w : World) (cfg : Config) : Prop :=
  forall i, 0 <= i <= window_count cfg ->
    exists a, local_timestamp w (start_date cfg + i * delta cfg) = inr a.

(** The windows written out: [k] strides of [d] from [cur]. *)
Fixpoint strides (d : timedelta) (cur : datetime) (k : nat)
  : list (datetime * datetime) :=
  match k with
  | O => []
  | S k' => (cur, cur + d) :: strides d (cur + d) k'
  end.


(** The state of the run after the [try] statement of a pass. *)
Definition window_step (w : World) (s : State) (p : pass) : State :=
  snd (window_body w (pass_current_date p) (pass_next_date p)
                   (pass_current_unix_time p) (pass_next_unix_time p) s).

(** The state after the [try] statements of a list of passes, in order. *)
Definition run_windows (w : World) (ps : list pass) (s : State) : State :=
  fold_left (window_step w) ps s.

(** The statement and the file name of a pass. *)
Definition window_statement (p : pass) : string :=
  execute_statement (pass_current_unix_time p) (pass_next_unix_time p).

Definition window_file_name (w : World) (p : pass) : string :=
  general_file_name w (pass_current_unix_time p) (pass_next_unix_time p)
                    (pass_current_date p) (pass_next_date p).

(** What the chain query, projection, export of a pass comes to when it is
    started in state [s]: the exception that ends it, or the frame that was
    written. *)
Definition window_chain (w : World) (s : State) (p : pass)
  : exn + DataFrame :=
  let history := submitted s ++ [window_statement p] in
  match cursor_execute w (submitted s) (window_statement p) with
  | Some e => inl e
  | None =>
  match cursor_fetchall w history with
  | inl e => inl e
  | inr data =>
  match cursor_description w history with
  | None => inl (TypeError "'NoneType' object is not iterable")
  | Some names =>
  match DataFrame_new data names with
  | inl e => inl e
  | inr df =>
  match ResultProjector w df with
  | inl e => inl e
  | inr out =>
  match excel_write w (written s) (window_file_name w p) out with
  | Some e => inl e
  | None => inr out
  end end end end end end.



(** The state in which the loop starts: connected, statement prepared. *)
Definition prepared_state : State :=
  mkState [ (INFO, "Database connection established successfully.");
            (INFO, "SQL statement prepared and executed successfully.") ]
          [] [prepared_statement] [] false false.

(** Every row of the frame has one cell per column. *)
Definition wf_frame (df : DataFrame) : Prop :=
  Forall (fun r => List.length r = List.length (columns df)) (rows df).

(** The cell of [row] in the column labelled [label]. *)
Definition cell (cols : list string) (row : list value) (label : string)
  : value :=
  hd VNone (lookup_all cols row label).

(** The output row for an input row and its distance: the cells in the
    order of [output_columns], the distance in its place. *)
Definition projected_row (cols : list string) (row : list value) (x : float)
  : list value :=
  map (fun l => if String.eqb l "between_coords_distance_m"
                then VFloat x else cell cols row l)
      output_columns.

(** The columns the projection needs to find in its input. *)
Definition required_columns : list string :=
  [ "icao24"; "callsign"; "null_start_time"; "null_end_time";
    "time_of_previous_not_null_coords"; "time_of_next_not_null_coords";
    "previous_latitude"; "previous_longitude"; "next_latitude";
    "next_longitude"; "null_duration_seconds";
    "between_coords_duration_seconds"; "avg_nic"; "min_nic"; "max_nic" ].

End Script.
Import Script.

(* ================================================================== *)
(** * Sample worlds and configurations *)

Module Samples.

(** A result set with the fifteen required columns, in the order of the
    statement. *)
Definition source_columns : list string := required_columns.

Definition sample_row : list value :=
  [ VStr "4b1805"; VStr "SWR123"; VInt 1672534800; VInt 1672535400;
    VInt 1672534790; VInt 1672535410;
    VFloat 47.5%float; VFloat 8.5%float; VFloat 47.625%float;
    VFloat 8.75%float; VInt 600; VInt 620;
    VFloat 7.5%float; VInt 6; VInt 8 ].

Definition other_row : list value :=
  [ VStr "3c6444"; VStr "DLH400"; VInt 1672540000; VInt 1672540060;
    VInt 1672539990; VInt 1672540070;
    VFloat 50%float; VFloat 8.5%float; VFloat 50.125%float;
    VFloat 8.625%float; VInt 60; VInt 80;
    VFloat 8%float; VInt 8; VInt 8 ].

Definition sample_frame : DataFrame :=
  mkFrame source_columns [sample_row; other_row].

(** A store that answers every statement with the two sample rows, a
    geodesic that answers 11500.0 to everything, a disk that never fails,
    UTC as the local zone, and a [%Y] of four digits. *)
Definition world_ok : World :=
  mkWorld (fixed_offset_timestamp 0) true None
          (fun _ _ => None)
          (fun _ => inr [sample_row; other_row])
          (fun _ => Some source_columns)
          (fun _ _ => inr 11500%float)
          (fun _ _ _ => None)
          (fun _ => None)
          (fun _ => None).


(** The store rejects the statement submitted for preparation. *)
Definition world_prepare_fails : World :=
  mkWorld (fixed_offset_timestamp 0) true None
          (fun _ _ => Some (Exn "TrinoUserError" "mismatched input '<EOF>'"))
          (fun _ => inr [])
          (fun _ => None)
          (fun _ _ => inr 0%float)
          (fun _ _ _ => None)
          (fun _ => None)
          (fun _ => None).

(** As [world_prepare_fails], and [cursor.close()] raises as well. *)
Definition world_prepare_and_close_fail : World :=
  mkWorld (fixed_offset_timestamp 0) true None
          (fun _ _ => Some (Exn "TrinoUserError" "mismatched input '<EOF>'"))
          (fun _ => inr [])
          (fun _ => None)
          (fun _ _ => inr 0%float)
          (fun _ _ _ => None)
          (fun _ => Some (Exn "TrinoConnectionError" "connection reset"))
          (fun _ => None).

(** A geodesic that treats its points as geopy 2 does: a coordinate that is
    not a finite number, or a latitude beyond 90 degrees, is a ValueError;
    a longitude beyond 180 degrees is wrapped and accepted. *)
Definition not_finite (i : item) : bool :=
  match i with
  | Scalar (VFloat x) => PrimFloat.is_nan x || PrimFloat.is_infinity x
  | Scalar (VInt _) => false
  | _ => true
  end.

Definition latitude_out_of_range (i : item) : bool :=
  match i with
  | Scalar (VFloat x) => PrimFloat.ltb 90%float (PrimFloat.abs x)
  | Scalar (VInt z) => 90 <? Z.abs z
  | _ => false
  end.

Definition world_geopy_like : World :=
  mkWorld (fixed_offset_timestamp 0) true None
          (fun _ _ => None)
          (fun _ => inr [sample_row; other_row])
          (fun _ => Some source_columns)
          (fun p q =>
             if not_finite (fst p) || not_finite (snd p)
                || not_finite (fst q) || not_finite (snd q)
             then inl (ValueError "Point coordinates must be finite.")
             else if latitude_out_of_range (fst p)
                     || latitude_out_of_range (fst q)
             then inl (ValueError "Latitude must be in the [-90; 90] range.")
             else inr 11500%float)
          (fun _ _ _ => None)
          (fun _ => None)
          (fun _ => None).

(** A row whose previous latitude is 91 degrees. *)
Definition row_latitude_91 : list value :=
  [ VStr "4b1805"; VStr "SWR123"; VInt 1672534800; VInt 1672535400;
    VInt 1672534790; VInt 1672535410;
    VFloat 91%float; VFloat 8.5%float; VFloat 47.625%float;
    VFloat 8.75%float; VInt 600; VInt 620;
    VFloat 7.5%float; VInt 6; VInt 8 ].

(** A row whose previous longitude is 181 degrees. *)
Definition row_longitude_181 : list value :=
  [ VStr "4b1805"; VStr "SWR123"; VInt 1672534800; VInt 1672535400;
    VInt 1672534790; VInt 1672535410;
    VFloat 47.5%float; VFloat 181%float; VFloat 47.625%float;
    VFloat 8.75%float; VInt 600; VInt 620;
    VFloat 7.5%float; VInt 6; VInt 8 ].

(** Result sets that lack the column [icao24]. *)
Definition frame_without_icao24 : DataFrame :=
  mkFrame (tl source_columns) [tl sample_row; tl other_row].

Definition frame_without_icao24_latitude_91 : DataFrame :=
  mkFrame (tl source_columns) [tl row_latitude_91; tl other_row].

(** A result set in which the column [icao24] comes twice. *)
Definition frame_duplicate_icao24 : DataFrame :=
  mkFrame ("icao24" :: source_columns)
          [VStr "4b1805" :: sample_row; VStr "3c6444" :: other_row].

(** 2023-01-01 to 2023-01-03 in steps of one day. *)
Definition two_day_config : Config :=
  mkConfig (datetime_ymd 2023 1 1) (datetime_ymd 2023 1 3) (timedelta_days 1).


(** As [world_ok], in a local zone one hour east of UTC, and in one five
    hours west of it. *)
Definition world_utc_plus_1 : World :=
  mkWorld (fixed_offset_timestamp 3600) true None
          (fun _ _ => None)
          (fun _ => inr [sample_row; other_row])
          (fun _ => Some source_columns)
          (fun _ _ => inr 11500%float)
          (fun _ _ _ => None)
          (fun _ => None)
          (fun _ => None).

Definition world_utc_minus_5 : World :=
  mkWorld (fixed_offset_timestamp (-18000)) true None
          (fun _ _ => None)
          (fun _ => inr [sample_row; other_row])
          (fun _ => Some source_columns)
          (fun _ _ => inr 11500%float)
          (fun _ _ _ => None)
          (fun _ => None)
          (fun _ => None).

(** The instants 2023-01-01T00:00:00Z and 2023-01-03T00:00:00Z as the wall
    clock five hours west of UTC shows them: 19:00 of the day before. *)
Definition two_day_config_minus_5 : Config :=
  mkConfig (datetime_ymd 2022 12 31 + 19 * 3600)
           (datetime_ymd 2023 1 2 + 19 * 3600)
           (timedelta_days 1).





(** One day with a stride of zero. *)
Definition zero_stride_config : Config :=
  mkConfig (datetime_ymd 2023 1 1) (datetime_ymd 2023 1 2) 0.

End Samples.
Import Samples.

(* ================================================================== *)
(** * Vocabulary and samples for the run as a whole *)

Module RunFacts.


(** The labels [calculate_distance] reads, in the order it reads them. *)
Definition coordinate_columns : list string :=
  [ "previous_latitude"; "previous_longitude"; "next_latitude";
    "next_longitude" ].

(** The store cannot be reached. *)
Definition world_connect_fails : World :=
  mkWorld (fixed_offset_timestamp 0) true
          (Some (Exn "TrinoConnectionError" "failed to connect"))
          (fun _ _ => None)
          (fun _ => inr [sample_row; other_row])
          (fun _ => Some source_columns)
          (fun _ _ => inr 11500%float)
          (fun _ _ _ => None)
          (fun _ => None)
          (fun _ => None).

(** As [world_ok], but [cursor.close()] raises. *)
Definition world_cursor_close_fails : World :=
  mkWorld (fixed_offset_timestamp 0) true None
          (fun _ _ => None)
          (fun _ => inr [sample_row; other_row])
          (fun _ => Some source_columns)
          (fun _ _ => inr 11500%float)
          (fun _ _ _ => None)
          (fun _ => Some (Exn "TrinoConnectionError" "connection reset"))
          (fun _ => None).

(** A range that is empty: it ends where it starts. *)
Definition empty_range_config : Config :=
  mkConfig (datetime_ymd 2023 1 1) (datetime_ymd 2023 1 1) (timedelta_days 1).

(** One day walked backwards. *)
Definition negative_stride_config : Config :=
  mkConfig (datetime_ymd 2023 1 1) (datetime_ymd 2023 1 2)
           (timedelta_days (-1)).

(** A row of a table that has no column [next_latitude]. *)
Definition columns_without_next_latitude : list string :=
  [ "icao24"; "previous_latitude"; "previous_longitude"; "next_longitude" ].

Definition row_without_next_latitude : list value :=
  [ VStr "4b1805"; VFloat 47.5%float; VFloat 8.5%float; VFloat 8.75%float ].

End RunFacts.
Import RunFacts.

(* ================================================================== *)
(** * The loop of [main] and the passes it makes *)

Section WindowIteration.

Variable w : World.
Variable cfg : Config.



Lemma dt_add_valid t d : dt_valid (t + d) -> dt_add t d = Some (t + d).
Proof.
  unfold dt_add, dt_valid, dt_validb. intros [H1 H2].
  apply Z.leb_le in H1. apply Z.ltb_lt in H2. now rewrite H1, H2.
Qed.

Lemma dt_add_Some t d t' : dt_add t d = Some t' -> t' = t + d /\ dt_valid t'.
Proof.
  unfold dt_add, dt_valid. destruct (dt_validb (t + d)) eqn:Hv; [|discriminate].
  intros H; injection H as <-. unfold dt_validb in Hv.
  apply andb_true_iff in Hv as [H1 H2].
  apply Z.leb_le in H1. apply Z.ltb_lt in H2. auto.
Qed.

(** The recording run adds its passes to those it starts with. *)
Lemma window_loop_record_from : forall fuel cur acc,
  window_loop w cfg fuel record_pass cur acc
  = (fst (window_loop w cfg fuel record_pass cur []),
     acc ++ snd (window_loop w cfg fuel record_pass cur [])).
Proof.
  induction fuel as [|fuel IH]; intros cur acc; cbn [window_loop].
  - cbn. now rewrite app_nil_r.
  - destruct (cur <? end_date cfg); [|cbn; now rewrite app_nil_r].
    destruct (dt_add cur (delta cfg)) as [next|];
      [|cbn; now rewrite app_nil_r].
    unfold bind, lift.
    destruct (local_timestamp w cur) as [e|a];
      [cbn; now rewrite app_nil_r|].
    cbn [ret]. destruct (local_timestamp w next) as [e|b];
      [cbn; now rewrite app_nil_r|].
    cbn [ret record_pass app].
    rewrite (IH next (acc ++ [mkPass cur next a b])).
    rewrite (IH next [mkPass cur next a b]).
    cbn [fst snd]. now rewrite <- app_assoc.
Qed.

(** One turn of the recording run. *)
Lemma record_loop_step (fuel : nat) (cur : datetime) :
  window_loop w cfg (S fuel) record_pass cur []
  = if cur <? end_date cfg then
      match dt_add cur (delta cfg) with
      | None => (Raise (OverflowError "date value out of range"), [])
      | Some next =>
          match local_timestamp w cur with
          | inl e => (Raise e, [])
          | inr a =>
              match local_timestamp w next with
              | inl e => (Raise e, [])
              | inr b =>
                  (fst (window_loop w cfg fuel record_pass next []),
                   mkPass cur next a b
                   :: snd (window_loop w cfg fuel record_pass next []))
              end
          end
      end
    else (Ok tt, []).
Proof.
  cbn [window_loop].
  destruct (cur <? end_date cfg); [|reflexivity].
  destruct (dt_add cur (delta cfg)) as [next|]; [|reflexivity].
  unfold bind, lift.
  destruct (local_timestamp w cur) as [e|a]; [reflexivity|].
  cbn [ret]. destruct (local_timestamp w next) as [e|b]; [reflexivity|].
  cbn [ret record_pass app].
  rewrite (window_loop_record_from fuel next [mkPass cur next a b]).
  destruct (fst (window_loop w cfg fuel record_pass next [])) as [[]| |];
    reflexivity.
Qed.

(** One turn of the loop, read on its passes. *)
Lemma window_iterator_step (fuel : nat) (cur : datetime) :
  window_iterator w cfg (S fuel) cur
  = if cur <? end_date cfg then
      match dt_add cur (delta cfg) with
      | None => Raise (OverflowError "date value out of range")
      | Some next =>
          match local_timestamp w cur with
          | inl e => Raise e
          | inr a =>
              match local_timestamp w next with
              | inl e => Raise e
              | inr b =>
                  match window_iterator w cfg fuel next with
                  | Ok ps => Ok (mkPass cur next a b :: ps)
                  | Raise e => Raise e
                  | Timeout => Timeout
                  end
              end
          end
      end
    else Ok [].
Proof.
  unfold window_iterator. rewrite record_loop_step.
  destruct (cur <? end_date cfg); [|reflexivity].
  destruct (dt_add cur (delta cfg)) as [next|]; [|reflexivity].
  destruct (local_timestamp w cur) as [e|a]; [reflexivity|].
  destruct (local_timestamp w next) as [e|b]; [reflexivity|].
  destruct (window_loop w cfg fuel record_pass next []) as [[[]|e|] ps];
    reflexivity.
Qed.

Lemma window_iterator_passes (fuel : nat) (cur : datetime) (ps : list pass) :
  window_iterator w cfg fuel cur = Ok ps -> passes_made w cfg fuel cur = ps.
Proof.
  unfold window_iterator, passes_made.
  destruct (window_loop w cfg fuel record_pass cur []) as [[[]|e|] ps'];
    intros H; try discriminate. now injection H.
Qed.

(** The state one [try] statement leaves behind, by the outcome of the
    chain. *)
Lemma window_step_spec (s : State) (p : pass) :
  window_body w (pass_current_date p) (pass_next_date p)
              (pass_current_unix_time p) (pass_next_unix_time p) s
  = (Ok tt,
     match window_chain w s p with
     | inr out =>
         mkState
           (log s ++ [(INFO, ("Data written to "
                               ++ window_file_name w p)%string)])
           (stdout s ++ [("Data written to "
                          ++ window_file_name w p)%string])
           (submitted s ++ [window_statement p])
           (written s ++ [(window_file_name w p, out)])
           (cursor_closed s) (conn_closed s)
     | inl e =>
         mkState
           (log s ++ [(ERROR,
                       ("Failed during SQL execution or file operation: "
                        ++ exn_msg e)%string)])
           (stdout s)
           (submitted s ++ [window_statement p])
           (written s) (cursor_closed s) (conn_closed s)
     end).
Proof.
  unfold window_body, window_try, window_chain, try_except, bind, execute,
    fetchall, description_names, to_excel, logging_info, logging_error, print,
    window_statement, window_file_name.
  cbn [submitted written log stdout cursor_closed conn_closed].
  destruct (cursor_execute w _ _); [reflexivity|].
  destruct (cursor_fetchall w _) as [e|data]; [reflexivity|].
  cbn [lift raise ret submitted].
  destruct (cursor_description w _) as [names|]; [|reflexivity].
  destruct (DataFrame_new data names) as [e|df]; [reflexivity|].
  cbn [lift raise ret].
  destruct (ResultProjector w df) as [e|out]; [reflexivity|].
  cbn [lift raise ret written].
  destruct (excel_write w _ _ _); reflexivity.
Qed.

Lemma window_body_step (s : State) (p : pass) :
  window_body w (pass_current_date p) (pass_next_date p)
              (pass_current_unix_time p) (pass_next_unix_time p) s
  = (Ok tt, window_step w s p).
Proof. unfold window_step. now rewrite window_step_spec. Qed.

(** One turn of the loop of [main], read on its state. *)
Lemma window_loop_step (fuel : nat) (cur : datetime) (s : State) :
  window_loop w cfg (S fuel) (window_body w) cur s
  = if cur <? end_date cfg then
      match dt_add cur (delta cfg) with
      | None => (Raise (OverflowError "date value out of range"), s)
      | Some next =>
          match local_timestamp w cur with
          | inl e => (Raise e, s)
          | inr a =>
              match local_timestamp w next with
              | inl e => (Raise e, s)
              | inr b =>
                  window_loop w cfg fuel (window_body w) next
                    (window_step w s (mkPass cur next a b))
              end
          end
      end
    else (Ok tt, s).
Proof.
  cbn [window_loop].
  destruct (cur <? end_date cfg); [|reflexivity].
  destruct (dt_add cur (delta cfg)) as [next|]; [|reflexivity].
  unfold bind, lift.
  destruct (local_timestamp w cur) as [e|a]; [reflexivity|].
  cbn [ret]. destruct (local_timestamp w next) as [e|b]; [reflexivity|].
  cbn [ret].
  pose proof (window_body_step s (mkPass cur next a b)) as Hb.
  cbn [pass_current_date pass_next_date pass_current_unix_time
       pass_next_unix_time] in Hb.
  now rewrite Hb.
Qed.

(** The loop of [main] and the recording run end the same way, and the
    loop of [main] leaves the state its [try] statements made of the
    passes recorded. *)
Lemma window_loop_trace : forall fuel cur s,
  window_loop w cfg fuel (window_body w) cur s
  = (fst (window_loop w cfg fuel record_pass cur []),
     run_windows w (passes_made w cfg fuel cur) s).
Proof.
  unfold passes_made.
  induction fuel as [|fuel IH]; intros cur s; [reflexivity|].
  rewrite record_loop_step, window_loop_step.
  destruct (cur <? end_date cfg); [|reflexivity].
  destruct (dt_add cur (delta cfg)) as [next|]; [|reflexivity].
  destruct (local_timestamp w cur) as [e|a]; [reflexivity|].
  destruct (local_timestamp w next) as [e|b]; [reflexivity|].
  rewrite IH. reflexivity.
Qed.

Lemma window_loop_fold (fuel : nat) (cur : datetime) (ps : list pass)
  (s : State) :
  window_iterator w cfg fuel cur = Ok ps ->
  window_loop w cfg fuel (window_body w) cur s = (Ok tt, run_windows w ps s).
Proof.
  intros H. rewrite window_loop_trace.
  rewrite (window_iterator_passes fuel cur ps H).
  unfold window_iterator in H.
  destruct (window_loop w cfg fuel record_pass cur []) as [[[]|e|] ps'];
    try discriminate. reflexivity.
Qed.

(** The epoch values of the passes are those [timestamp()] returned. *)
Lemma passes_made_stamped : forall fuel cur,
  Forall (stamped w) (passes_made w cfg fuel cur).
Proof.
  unfold passes_made.
  induction fuel as [|fuel IH]; intros cur; [constructor|].
  rewrite record_loop_step.
  destruct (cur <? end_date cfg); [|constructor].
  destruct (dt_add cur (delta cfg)) as [next|]; [|constructor].
  destruct (local_timestamp w cur) as [e|a] eqn:Ha; [constructor|].
  destruct (local_timestamp w next) as [e|b] eqn:Hb; [constructor|].
  cbn [snd]. constructor; [now split|apply IH].
Qed.

(** The loop makes [k] passes when [end_date] falls in the [k]-th stride
    from [current_date], the sums stay representable and [timestamp()]
    returns on every bound. *)
Lemma window_iterator_strides : forall (k fuel : nat) (cur : datetime),
  0 < delta cfg ->
  (k < fuel)%nat ->
  dt_valid cur ->
  dt_valid (cur + Z.of_nat k * delta cfg) ->
  cur + (Z.of_nat k - 1) * delta cfg < end_date cfg ->
  end_date cfg <= cur + Z.of_nat k * delta cfg ->
  (forall i, 0 <= i <= Z.of_nat k ->
     exists a, local_timestamp w (cur + i * delta cfg) = inr a) ->
  exists ps,
    window_iterator w cfg fuel cur = Ok ps /\
    map window_of ps = strides (delta cfg) cur k.
Proof.
  induction k as [|k IH]; intros fuel cur Hd Hf Hv Hvk Hlo Hhi Hts.
  - destruct fuel as [|fuel]; [lia|]. exists []. split; [|reflexivity].
    rewrite window_iterator_step.
    replace (cur <? end_date cfg) with false; [reflexivity|].
    symmetry. apply Z.ltb_ge. lia.
  - destruct fuel as [|fuel]; [lia|].
    assert (Hk : 0 <= Z.of_nat k * delta cfg)
      by (apply Z.mul_nonneg_nonneg; lia).
    rewrite Nat2Z.inj_succ in Hvk, Hlo, Hhi, Hts.
    assert (Hnext : dt_valid (cur + delta cfg)).
    { unfold dt_valid in *. lia. }
    destruct (Hts 0 ltac:(lia)) as [a Ha].
    replace (cur + 0 * delta cfg) with cur in Ha by lia.
    destruct (Hts 1 ltac:(lia)) as [b Hb].
    replace (cur + 1 * delta cfg) with (cur + delta cfg) in Hb by lia.
    destruct (IH fuel (cur + delta cfg)) as (ps & Hit & Hmap);
      try assumption; try lia.
    + replace (cur + delta cfg + Z.of_nat k * delta cfg)
        with (cur + Z.succ (Z.of_nat k) * delta cfg) by lia. assumption.
    + intros i Hi. destruct (Hts (i + 1) ltac:(lia)) as [c Hc].
      exists c. rewrite <- Hc. f_equal. lia.
    + exists (mkPass cur (cur + delta cfg) a b :: ps). split.
      * rewrite window_iterator_step.
        replace (cur <? end_date cfg) with true
          by (symmetry; apply Z.ltb_lt; lia).
        now rewrite (dt_add_valid _ _ Hnext), Ha, Hb, Hit.
      * cbn [map strides window_of pass_current_date pass_next_date].
        now rewrite Hmap.
Qed.

Lemma window_count_bounds :
  0 < delta cfg -> start_date cfg < end_date cfg ->
  1 <= window_count cfg /\
  start_date cfg + (window_count cfg - 1) * delta cfg < end_date cfg /\
  end_date cfg <= start_date cfg + window_count cfg * delta cfg.
Proof.
  intros Hd Hlt. unfold window_count.
  set (a := end_date cfg - start_date cfg + delta cfg - 1).
  pose proof (Z.div_mod a (delta cfg) ltac:(lia)) as Hdm.
  pose proof (Z.mod_pos_bound a (delta cfg) Hd) as Hm.
  subst a. nia.
Qed.

End WindowIteration.



(** On a configuration whose bounds are representable and answered by
    [timestamp()], the passes of the loop are the windows of the range, one
    stride each, in order. *)
Lemma passes_made_strides (w : World) (cfg : Config) (fuel : nat) :
  valid_config cfg ->
  stamps_return w cfg ->
  start_date cfg < end_date cfg ->
  (Z.to_nat (window_count cfg) < fuel)%nat ->
  exists ps,
    window_iterator w cfg fuel (start_date cfg) = Ok ps /\
    passes_made w cfg fuel (start_date cfg) = ps /\
    map window_of ps
    = strides (delta cfg) (start_date cfg) (Z.to_nat (window_count cfg)).
Proof.
  intros (Hd & Hvs & Hvl) Hts Hlt Hfuel.
  destruct (window_count_bounds cfg Hd Hlt) as (Hn1 & Hlo & Hhi).
  set (n := Z.to_nat (window_count cfg)) in *.
  assert (Hn : Z.of_nat n = window_count cfg) by (subst n; lia).
  unfold stamps_return in Hts.
  rewrite <- Hn in Hvl, Hlo, Hhi, Hts.
  destruct (window_iterator_strides w cfg n fuel (start_date cfg))
    as (ps & Hit & Hmap); try assumption.
  exists ps. split; [exact Hit|]. split; [|exact Hmap].
  now apply window_iterator_passes.
Qed.




(** With a stride of zero the loop never comes to its end. *)
Lemma window_iterator_zero_stride (fuel : nat) :
  window_iterator world_ok zero_stride_config fuel
                  (start_date zero_stride_config)
  = Timeout.
Proof.
  induction fuel as [|fuel IH]; [reflexivity|].
  rewrite window_iterator_step.
  replace (start_date zero_stride_config <? end_date zero_stride_config)
    with true by (vm_compute; reflexivity).
  replace (dt_add (start_date zero_stride_config) (delta zero_stride_config))
    with (Some (start_date zero_stride_config)) by (vm_compute; reflexivity).
  replace (local_timestamp world_ok (start_date zero_stride_config))
    with (inr 1672531200 : exn + Z) by (vm_compute; reflexivity).
  now rewrite IH.
Qed.

(* ================================================================== *)
(** * The run as a fold over the passes of the loop *)

Section PipelineRun.

Variable w : World.


Lemma window_step_submitted (s : State) (p : pass) :
  submitted (window_step w s p) = submitted s ++ [window_statement p].
Proof.
  unfold window_step. rewrite window_step_spec. cbn [snd].
  destruct (window_chain w s p); reflexivity.
Qed.

Lemma run_windows_submitted : forall ps s,
  submitted (run_windows w ps s)
  = submitted s ++ map window_statement ps.
Proof.
  induction ps as [|p ps IH]; intros s; cbn [run_windows fold_left map].
  - now rewrite app_nil_r.
  - fold (run_windows w ps (window_step w s p)). rewrite IH.
    rewrite window_step_submitted. now rewrite <- app_assoc.
Qed.

Lemma run_windows_closed : forall ps s,
  cursor_closed (run_windows w ps s) = cursor_closed s /\
  conn_closed (run_windows w ps s) = conn_closed s.
Proof.
  induction ps as [|p ps IH]; intros s; cbn [run_windows fold_left].
  - auto.
  - fold (run_windows w ps (window_step w s p)).
    destruct (IH (window_step w s p)) as [-> ->].
    unfold window_step. rewrite window_step_spec. cbn [snd].
    destruct (window_chain w s p); auto.
Qed.

(** The files of one pass: none, or one that bears the name of the pass. *)
Lemma window_step_written (s : State) (p : pass) :
  written (window_step w s p)
  = match window_chain w s p with
    | inl _ => written s
    | inr out => written s ++ [(window_file_name w p, out)]
    end.
Proof.
  unfold window_step. rewrite window_step_spec. cbn [snd].
  destruct (window_chain w s p); reflexivity.
Qed.

(** Every file of a run over [ps] was there before or bears the name of
    one of the passes. *)
Lemma run_windows_written : forall ps s name df,
  In (name, df) (written (run_windows w ps s)) ->
  In (name, df) (written s) \/
  exists p, In p ps /\ name = window_file_name w p.
Proof.
  induction ps as [|p ps IH]; intros s name df H;
    cbn [run_windows fold_left] in H.
  - now left.
  - fold (run_windows w ps (window_step w s p)) in H.
    apply IH in H as [H | (p' & Hin & ->)].
    + rewrite window_step_written in H.
      destruct (window_chain w s p) as [e|out].
      * now left.
      * apply in_app_or in H as [H | [H | []]]; [now left|].
        injection H as <- _. right. exists p. split; [now left|reflexivity].
    + right. exists p'. split; [now right|reflexivity].
Qed.

(** The closing block always returns; it touches neither the statements
    nor the files, and logs at most its own failure. *)
Lemma cleanup_spec (s : State) :
  exists s', cleanup w s = (Ok tt, s') /\
             submitted s' = submitted s /\ written s' = written s /\
             stdout s' = stdout s /\
             (log s' = log s \/
              exists e, log s' = log s ++ [(ERROR,
                ("Failed to close database connection: " ++ exn_msg e)%string)]).
Proof.
  unfold cleanup, try_except, bind, close_cursor, close_conn, logging_error.
  destruct (cursor_close w (submitted s)) as [e|]; cbn [submitted].
  - eexists; split; [reflexivity|]. cbn. repeat split; eauto.
  - destruct (conn_close w (submitted s)) as [e|].
    + eexists; split; [reflexivity|]. cbn. repeat split; eauto.
    + eexists; split; [reflexivity|]. cbn. repeat split; eauto.
Qed.

(** From connection to the start of the loop. *)
Lemma main_prepared (cfg : Config) (fuel : nat) :
  connect w = None ->
  cursor_execute w [] prepared_statement = None ->
  main w cfg fuel initial
  = (window_loop w cfg fuel (window_body w) (start_date cfg) ;; cleanup w)
      prepared_state.
Proof.
  intros Hc Hp. unfold main, connect_to_database. rewrite Hc.
  cbv beta iota delta [bind ret logging_info execute initial prepared_state
                       submitted log stdout written cursor_closed conn_closed
                       app].
  rewrite Hp. reflexivity.
Qed.

(** What a run that connects and prepares leaves behind, whatever the
    outcome of its loop: the statements and the files of the passes the
    loop made.  The closing block is reached when the loop came to its
    end; an exception of a head leaves [main] as it is. *)
Lemma main_trace (cfg : Config) (fuel : nat) :
  connect w = None ->
  cursor_execute w [] prepared_statement = None ->
  let ps := passes_made w cfg fuel (start_date cfg) in
  submitted (snd (main w cfg fuel initial))
  = prepared_statement :: map window_statement ps /\
  written (snd (main w cfg fuel initial))
  = written (run_windows w ps prepared_state) /\
  stdout (snd (main w cfg fuel initial))
  = stdout (run_windows w ps prepared_state) /\
  match window_iterator w cfg fuel (start_date cfg) with
  | Ok _ => fst (main w cfg fuel initial) = Ok tt
  | Raise e =>
      main w cfg fuel initial = (Raise e, run_windows w ps prepared_state)
  | Timeout =>
      main w cfg fuel initial = (Timeout, run_windows w ps prepared_state)
  end.
Proof.
  intros Hc Hp ps. rewrite (main_prepared cfg fuel Hc Hp).
  unfold bind. rewrite window_loop_trace. fold ps.
  unfold window_iterator.
  destruct (window_loop w cfg fuel record_pass (start_date cfg) [])
    as [[[]|e|] ps'] eqn:Hloop; cbn [fst snd].
  - destruct (cleanup_spec (run_windows w ps prepared_state))
      as (s' & -> & Hs & Hw & Ho & _).
    cbn [fst snd]. rewrite Hs, Hw, Ho, run_windows_submitted.
    repeat split.
  - rewrite run_windows_submitted. repeat split.
  - rewrite run_windows_submitted. repeat split.
Qed.

End PipelineRun.

Section MainRun.

Variable w : World.

(** A run whose connection fails ends at once. *)
Lemma main_connect_fails (cfg : Config) (fuel : nat) (e : exn) :
  connect w = Some e ->
  main w cfg fuel initial
  = (Ok tt,
     mkState [ (ERROR, ("Failed to connect to the database: "
                        ++ exn_msg e)%string);
               (ERROR, ("Could not establish database connection: "
                        ++ exn_msg e)%string) ]
             [] [] [] false false).
Proof.
  intros Hc. unfold main, connect_to_database. rewrite Hc. reflexivity.
Qed.

(** A run whose preparation fails goes through the [except] block. *)
Lemma main_prepare_fails (cfg : Config) (fuel : nat) (e : exn) :
  connect w = None ->
  cursor_execute w [] prepared_statement = Some e ->
  main w cfg fuel initial
  = (close_cursor w ;; close_conn w)
      (mkState [ (INFO, "Database connection established successfully.");
                 (ERROR, ("Failed to prepare the SQL statement: "
                          ++ exn_msg e)%string) ]
               [] [prepared_statement] [] false false).
Proof.
  intros Hc Hp. unfold main, connect_to_database. rewrite Hc.
  cbv beta iota delta [bind ret logging_info logging_error execute initial
                       submitted log stdout written cursor_closed conn_closed
                       app].
  rewrite Hp. reflexivity.
Qed.

(** A run that connects, prepares and whose loop comes to its end
    returns. *)
Lemma main_completes (cfg : Config) (fuel : nat) (ps : list pass) :
  connect w = None ->
  cursor_execute w [] prepared_statement = None ->
  window_iterator w cfg fuel (start_date cfg) = Ok ps ->
  exists s_end,
    main w cfg fuel initial = (Ok tt, s_end) /\
    submitted s_end = prepared_statement :: map window_statement ps /\
    written s_end = written (run_windows w ps prepared_state) /\
    stdout s_end = stdout (run_windows w ps prepared_state).
Proof.
  intros Hc Hp Hit. rewrite (main_prepared w cfg fuel Hc Hp).
  unfold bind. rewrite (window_loop_fold w cfg fuel _ ps _ Hit).
  destruct (cleanup_spec w (run_windows w ps prepared_state))
    as (s' & -> & Hs & Hw & Ho & _).
  exists s'. repeat split; try assumption.
  rewrite Hs, run_windows_submitted. reflexivity.
Qed.

End MainRun.

(* ================================================================== *)
(** * Statement texts *)

Section StatementText.







End StatementText.




(* ================================================================== *)
(** * Failures inside a window *)



(* ================================================================== *)
(** * File names *)

Lemma close_calls_keep (w : World) (s : State) :
  log (snd ((close_cursor w ;; close_conn w) s)) = log s /\
  submitted (snd ((close_cursor w ;; close_conn w) s)) = submitted s /\
  written (snd ((close_cursor w ;; close_conn w) s)) = written s /\
  stdout (snd ((close_cursor w ;; close_conn w) s)) = stdout s.
Proof.
  unfold bind, close_cursor, close_conn.
  destruct (cursor_close w (submitted s)); cbn [submitted snd];
    [auto|].
  destruct (conn_close w (submitted s)); cbn; auto.
Qed.

(** The two passes of the run over 2023-01-01 .. 2023-01-03 in a zone
    that reads the three midnights as UTC does. *)
Lemma two_day_passes (w : World) (fuel : nat) :
  local_timestamp w (datetime_ymd 2023 1 1) = inr 1672531200 ->
  local_timestamp w (datetime_ymd 2023 1 2) = inr 1672617600 ->
  local_timestamp w (datetime_ymd 2023 1 3) = inr 1672704000 ->
  (2 < fuel)%nat ->
  window_iterator w two_day_config fuel (start_date two_day_config)
  = Ok [ mkPass (datetime_ymd 2023 1 1) (datetime_ymd 2023 1 2)
                1672531200 1672617600;
         mkPass (datetime_ymd 2023 1 2) (datetime_ymd 2023 1 3)
                1672617600 1672704000 ].
Proof.
  intros H1 H2 H3 Hf.
  destruct fuel as [|[|[|fuel]]]; try lia.
  change (start_date two_day_config) with (datetime_ymd 2023 1 1).
  rewrite window_iterator_step.
  replace (datetime_ymd 2023 1 1 <? end_date two_day_config) with true
    by (vm_compute; reflexivity).
  replace (dt_add (datetime_ymd 2023 1 1) (delta two_day_config))
    with (Some (datetime_ymd 2023 1 2)) by (vm_compute; reflexivity).
  rewrite H1, H2, window_iterator_step.
  replace (datetime_ymd 2023 1 2 <? end_date two_day_config) with true
    by (vm_compute; reflexivity).
  replace (dt_add (datetime_ymd 2023 1 2) (delta two_day_config))
    with (Some (datetime_ymd 2023 1 3)) by (vm_compute; reflexivity).
  rewrite H2, H3, window_iterator_step.
  replace (datetime_ymd 2023 1 3 <? end_date two_day_config) with false
    by (vm_compute; reflexivity).
  reflexivity.
Qed.

(** C5, counterexample. The names follow the local zone of the process,
    because a naive [datetime] is read in that zone by [timestamp()] and
    shows its wall-clock date in [strftime].  One hour east of UTC the
    script's dates 2023-01-01 .. 2023-01-03 give other epoch values; five
    hours west of UTC the instants 2023-01-01T00:00:00Z .. 2023-01-03T00:00:00Z
    give the epoch values of the scenario but the dates of the day before. *)
Lemma file_names_follow_local_zone :
  map fst (written (snd (main world_utc_plus_1 two_day_config 3 initial)))
  = [ "1672527600-1672614000_2023-01-01_to_2023-01-02.xlsx";
      "1672614000-1672700400_2023-01-02_to_2023-01-03.xlsx" ] /\
  local_timestamp world_utc_minus_5 (start_date two_day_config_minus_5)
  = inr 1672531200 /\
  local_timestamp world_utc_minus_5 (end_date two_day_config_minus_5)
  = inr 1672704000 /\
  map fst (written (snd (main world_utc_minus_5 two_day_config_minus_5 3
                              initial)))
  = [ "1672531200-1672617600_2022-12-31_to_2023-01-01.xlsx";
      "1672617600-1672704000_2023-01-01_to_2023-01-02.xlsx" ].
Proof. repeat split; vm_compute; reflexivity. Qed.


(** C5, as the script has it. In a run that connects and prepares, every
    pass of the loop whose chain succeeds adds exactly one file, named
    [{start_epoch}-{end_epoch}_{start:%Y-%m-%d}_to_{end:%Y-%m-%d}.xlsx]
    after its own window: the epoch values are what [timestamp()] returned
    on the two bounds in the local zone of the process, the dates are the
    wall-clock dates of the bounds with the year as the platform prints
    [%Y]; a pass whose chain fails adds none; these are all the files
    of the run; and on a configuration whose bounds are representable and
    answered by [timestamp()] the passes are the windows of the range, one
    stride each, in order.  For 2023-01-01 .. 2023-01-03 in steps of one day, in a
    zone that reads the three midnights as UTC does, there are exactly two
    passes, and their files are
    [1672531200-1672617600_2023-01-01_to_2023-01-02.xlsx] and
    [1672617600-1672704000_2023-01-02_to_2023-01-03.xlsx]. *)
Theorem output_file_named_after_window
  (w : World) (cfg : Config) (fuel : nat) :
  connect w = None ->
  cursor_execute w [] prepared_statement = None ->
  (forall before p after,
      passes_made w cfg fuel (start_date cfg) = before ++ p :: after ->
      let s := run_windows w before prepared_state in
      local_timestamp w (pass_current_date p)
      = inr (pass_current_unix_time p) /\
      local_timestamp w (pass_next_date p) = inr (pass_next_unix_time p) /\
      match window_chain w s p with
      | inl _ => written (window_step w s p) = written s
      | inr out =>
          written (window_step w s p)
          = written s
            ++ [((str_int (pass_current_unix_time p) ++ "-"
                  ++ str_int (pass_next_unix_time p) ++ "_"
                  ++ strftime_Ymd (year_zero_padded w) (pass_current_date p)
                  ++ "_to_"
                  ++ strftime_Ymd (year_zero_padded w) (pass_next_date p)
                  ++ ".xlsx")%string, out)]
      end) /\
  written (snd (main w cfg fuel initial))
  = written (run_windows w (passes_made w cfg fuel (start_date cfg))
                         prepared_state) /\
  (valid_config cfg -> stamps_return w cfg ->
   start_date cfg < end_date cfg ->
   (Z.to_nat (window_count cfg) < fuel)%nat ->
   map window_of (passes_made w cfg fuel (start_date cfg))
   = strides (delta cfg) (start_date cfg) (Z.to_nat (window_count cfg))) /\
  (forall name df,
      In (name, df) (written (snd (main w cfg fuel initial))) ->
      exists p, In p (passes_made w cfg fuel (start_date cfg)) /\
        name = (str_int (pass_current_unix_time p) ++ "-"
                ++ str_int (pass_next_unix_time p) ++ "_"
                ++ strftime_Ymd (year_zero_padded w) (pass_current_date p)
                ++ "_to_"
                ++ strftime_Ymd (year_zero_padded w) (pass_next_date p)
                ++ ".xlsx")%string) /\
  (local_timestamp w (datetime_ymd 2023 1 1) = inr 1672531200 ->
   local_timestamp w (datetime_ymd 2023 1 2) = inr 1672617600 ->
   local_timestamp w (datetime_ymd 2023 1 3) = inr 1672704000 ->
   forall fuel', (2 < fuel')%nat ->
     exists p0 p1,
       window_iterator w two_day_config fuel' (start_date two_day_config)
       = Ok [p0; p1] /\
       window_of p0 = (datetime_ymd 2023 1 1, datetime_ymd 2023 1 2) /\
       window_of p1 = (datetime_ymd 2023 1 2, datetime_ymd 2023 1 3) /\
       window_file_name w p0
       = "1672531200-1672617600_2023-01-01_to_2023-01-02.xlsx" /\
       window_file_name w p1
       = "1672617600-1672704000_2023-01-02_to_2023-01-03.xlsx") /\
  (forall fuel', (2 < fuel')%nat ->
     map fst (written (snd (main world_ok two_day_config fuel' initial)))
     = [ "1672531200-1672617600_2023-01-01_to_2023-01-02.xlsx";
         "1672617600-1672704000_2023-01-02_to_2023-01-03.xlsx" ]).
Proof.
  intros Hc Hp.
  destruct (main_trace w cfg fuel Hc Hp) as (_ & Hw & _).
  split; [|split; [exact Hw|split; [|split; [|split]]]].
  - intros before p after Hps s.
    assert (Hst : stamped w p).
    { pose proof (passes_made_stamped w cfg fuel (start_date cfg)) as Hall.
      rewrite Forall_forall in Hall. apply Hall. rewrite Hps.
      apply in_or_app. right. now left. }
    destruct Hst as [Ha Hb].
    split; [exact Ha|]. split; [exact Hb|].
    rewrite window_step_written.
    destruct (window_chain w s p); reflexivity.
  - intros Hv Hts Hlt Hf.
    destruct (passes_made_strides w cfg fuel Hv Hts Hlt Hf)
      as (ps & _ & -> & Hmap).
    exact Hmap.
  - intros name df Hin. rewrite Hw in Hin.
    apply run_windows_written in Hin as [[] | (p & Hp' & ->)].
    exists p. split; [assumption|reflexivity].
  - intros H1 H2 H3 fuel' Hf.
    eexists _, _. split; [exact (two_day_passes w fuel' H1 H2 H3 Hf)|].
    split; [reflexivity|]. split; [reflexivity|].
    unfold window_file_name, general_file_name.
    cbn [pass_current_date pass_next_date pass_current_unix_time
         pass_next_unix_time].
    destruct (year_zero_padded w); split; vm_compute; reflexivity.
  - intros fuel' Hf.
    destruct (main_completes world_ok two_day_config fuel' _ eq_refl eq_refl
                (two_day_passes world_ok fuel' eq_refl eq_refl eq_refl Hf))
      as (s_end & -> & _ & Hw' & _).
    cbn [snd]. rewrite Hw'. vm_compute. reflexivity.
Qed.

(** The script's own run with UTC as the local zone, and the run of the
    scenario. *)
Lemma output_file_named_after_window_witness :
  (forall name df,
      In (name, df) (written (snd (main world_ok repo_config 366 initial))) ->
      exists p,
        In p (passes_made world_ok repo_config 366 (start_date repo_config)) /\
        name = (str_int (pass_current_unix_time p) ++ "-"
                ++ str_int (pass_next_unix_time p) ++ "_"
                ++ strftime_Ymd true (pass_current_date p) ++ "_to_"
                ++ strftime_Ymd true (pass_next_date p) ++ ".xlsx")%string) /\
  map fst (written (snd (main world_ok two_day_config 3 initial)))
  = [ "1672531200-1672617600_2023-01-01_to_2023-01-02.xlsx";
      "1672617600-1672704000_2023-01-02_to_2023-01-03.xlsx" ].
Proof.
  split.
  - exact (proj1 (proj2 (proj2 (proj2
             (output_file_named_after_window world_ok repo_config 366
                eq_refl eq_refl))))).
  - apply (proj2 (proj2 (proj2 (proj2 (proj2
             (output_file_named_after_window world_ok repo_config 366
                eq_refl eq_refl)))))).
    apply Nat.ltb_lt. reflexivity.
Defined.

(* ================================================================== *)
(** * Preparation *)

(** C9, counterexample. When the preparation fails and [cursor.close()]
    raises in the [except] block, the exception leaves [main] and
    [conn.close()] is never called: the connection is not released. *)
Lemma close_failure_leaves_connection_open :
  connect world_prepare_and_close_fail = None /\
  cursor_execute world_prepare_and_close_fail [] prepared_statement
  = Some (Exn "TrinoUserError" "mismatched input '<EOF>'") /\
  fst (main world_prepare_and_close_fail repo_config 366 initial)
  = Raise (Exn "TrinoConnectionError" "connection reset") /\
  conn_closed (snd (main world_prepare_and_close_fail repo_config 366 initial))
  = false.
Proof. repeat split. Qed.

(** C9, as the script has it. When the preparation fails, the error is
    logged and no window is processed: the prepared statement is the only
    statement submitted and no file is written; and when [cursor.close()]
    and [conn.close()] return, both are closed and [main] returns. *)
Theorem preparation_failure_ends_run
  (w : World) (cfg : Config) (fuel : nat) (e : exn) :
  connect w = None ->
  cursor_execute w [] prepared_statement = Some e ->
  log (snd (main w cfg fuel initial))
  = [ (INFO, "Database connection established successfully.");
      (ERROR, ("Failed to prepare the SQL statement: " ++ exn_msg e)%string) ] /\
  submitted (snd (main w cfg fuel initial)) = [prepared_statement] /\
  written (snd (main w cfg fuel initial)) = [] /\
  stdout (snd (main w cfg fuel initial)) = [] /\
  (cursor_close w [prepared_statement] = None ->
   conn_close w [prepared_statement] = None ->
   fst (main w cfg fuel initial) = Ok tt /\
   cursor_closed (snd (main w cfg fuel initial)) = true /\
   conn_closed (snd (main w cfg fuel initial)) = true).
Proof.
  intros Hc Hp. rewrite (main_prepare_fails w cfg fuel e Hc Hp).
  match goal with |- context [(close_cursor w ;; close_conn w) ?s] =>
    destruct (close_calls_keep w s) as (Hl & Hs & Hw & Ho) end.
  rewrite Hl, Hs, Hw, Ho. cbn [log submitted written stdout].
  split; [reflexivity|]. split; [reflexivity|].
  split; [reflexivity|]. split; [reflexivity|].
  intros Hcur Hconn.
  unfold bind, close_cursor, close_conn. cbn [submitted].
  rewrite Hcur. cbn [submitted]. rewrite Hconn. repeat split.
Qed.

Lemma preparation_failure_ends_run_witness :
  submitted (snd (main world_prepare_fails repo_config 366 initial))
  = [prepared_statement] /\
  written (snd (main world_prepare_fails repo_config 366 initial)) = [] /\
  conn_closed (snd (main world_prepare_fails repo_config 366 initial)) = true.
Proof.
  destruct (preparation_failure_ends_run world_prepare_fails repo_config 366
              (Exn "TrinoUserError" "mismatched input '<EOF>'")
              eq_refl eq_refl)
    as (_ & Hs & Hw & _ & Hclose).
  destruct (Hclose eq_refl eq_refl) as (_ & _ & Hconn).
  exact (conj Hs (conj Hw Hconn)).
Defined.

(** C10. The statement submitted for preparation is the one-character
    string of a single space, whatever the configuration: every run that
    connects submits it first. *)
Theorem prepared_statement_is_blank
  (w : World) (cfg : Config) (fuel : nat) :
  connect w = None ->
  prepared_statement = " " /\
  exists rest,
    submitted (snd (main w cfg fuel initial)) = prepared_statement :: rest.
Proof.
  intros Hc. split; [reflexivity|].
  destruct (cursor_execute w [] prepared_statement) as [e|] eqn:Hp.
  - exists []. rewrite (main_prepare_fails w cfg fuel e Hc Hp).
    match goal with |- context [(close_cursor w ;; close_conn w) ?s] =>
      destruct (close_calls_keep w s) as (_ & Hs & _) end.
    rewrite Hs. reflexivity.
  - destruct (main_trace w cfg fuel Hc Hp) as (Hs & _).
    eexists. exact Hs.
Qed.

Lemma prepared_statement_is_blank_witness :
  prepared_statement = " " /\
  exists rest,
    submitted (snd (main world_ok repo_config 366 initial))
    = prepared_statement :: rest.
Proof.
  exact (prepared_statement_is_blank world_ok repo_config 366 eq_refl).
Defined.

(* ================================================================== *)
(** * The projection of a result set *)

Section Projection.

Lemma width_bounds : forall (data : list (list value)) (r : list value),
  In r data -> (List.length r <= width data)%nat.
Proof.
  induction data as [|r0 data IH]; intros r Hin; [destruct Hin|].
  cbn [width fold_right]. fold (width data).
  destruct Hin as [->|Hin]; [lia|]. specialize (IH r Hin). lia.
Qed.

(** A frame built from a result set has one cell per column in every row,
    and one row per row of the result set. *)
Lemma DataFrame_new_wf (data : list (list value)) (cols : list string)
  (df : DataFrame) :
  DataFrame_new data cols = inr df ->
  columns df = cols /\ wf_frame df /\
  List.length (rows df) = List.length data.
Proof.
  unfold DataFrame_new, wf_frame. destruct data as [|r0 data].
  - intros [= <-]. cbn. repeat split. constructor.
  - destruct (Nat.eqb_spec (width (r0 :: data)) (List.length cols)) as [Hw|_];
      [|discriminate].
    intros [= <-]. cbn [columns rows]. repeat split.
    + apply Forall_forall. intros r Hr.
      change (In r (map (pad (width (r0 :: data))) (r0 :: data))) in Hr.
      apply in_map_iff in Hr as (r' & <- & Hr').
      unfold pad. rewrite length_app, repeat_length.
      pose proof (width_bounds _ _ Hr'). lia.
    + change (List.length (map (pad (width (r0 :: data))) (r0 :: data))
              = List.length (r0 :: data)).
      apply length_map.
Qed.

Lemma has_label_In (cols : list string) (l : string) :
  has_label cols l = true <-> In l cols.
Proof.
  unfold has_label. rewrite existsb_exists. split.
  - intros (c & Hin & Heq). apply String.eqb_eq in Heq. now subst.
  - intros Hin. exists l. split; [assumption|apply String.eqb_refl].
Qed.

Lemma has_label_not_In (cols : list string) (l : string) :
  has_label cols l = false <-> ~ In l cols.
Proof.
  rewrite <- has_label_In. destruct (has_label cols l); split; congruence.
Qed.

Lemma missing_labels_nil (cols labels : list string) :
  missing_labels cols labels = [] ->
  forall l, In l labels -> In l cols.
Proof.
  unfold missing_labels. intros H l Hl.
  apply has_label_In. destruct (has_label cols l) eqn:E; [reflexivity|].
  assert (Hin : In l (filter (fun l => negb (has_label cols l)) labels)).
  { apply filter_In. split; [assumption|]. now rewrite E. }
  rewrite H in Hin. destruct Hin.
Qed.

Lemma missing_labels_head (cols labels : list string) (m : string)
  (rest : list string) :
  missing_labels cols labels = m :: rest ->
  In m labels /\ ~ In m cols.
Proof.
  unfold missing_labels. intros H.
  assert (Hin : In m (filter (fun l => negb (has_label cols l)) labels))
    by (rewrite H; now left).
  apply filter_In in Hin as [Hl Hn]. split; [assumption|].
  apply has_label_not_In. now destruct (has_label cols m).
Qed.

Lemma lookup_all_cons (c : string) (cols : list string) (v : value)
  (r : list value) (l : string) :
  lookup_all (c :: cols) (v :: r) l
  = (if String.eqb c l then [v] else []) ++ lookup_all cols r l.
Proof.
  unfold lookup_all. cbn [combine filter fst].
  destruct (String.eqb c l); reflexivity.
Qed.

Lemma lookup_all_absent : forall (cols : list string) (r : list value)
  (l : string), ~ In l cols -> lookup_all cols r l = [].
Proof.
  induction cols as [|c cols IH]; intros r l Hn; [reflexivity|].
  destruct r as [|v r]; [reflexivity|].
  rewrite lookup_all_cons.
  destruct (String.eqb_spec c l) as [->|_]; [exfalso; apply Hn; now left|].
  apply IH. intros H. apply Hn. now right.
Qed.

(** Where labels do not repeat, a label that is present names one cell. *)
Lemma lookup_all_unique : forall (cols : list string) (r : list value)
  (l : string),
  NoDup cols -> List.length r = List.length cols -> In l cols ->
  lookup_all cols r l = [cell cols r l].
Proof.
  induction cols as [|c cols IH]; intros r l Hnd Hlen Hin; [destruct Hin|].
  destruct r as [|v r]; [discriminate|].
  apply NoDup_cons_iff in Hnd as [Hc Hnd].
  unfold cell. rewrite lookup_all_cons.
  destruct (String.eqb_spec c l) as [->|Hne].
  - now rewrite (lookup_all_absent cols r l Hc).
  - destruct Hin as [->|Hin]; [contradiction|].
    cbn [app]. rewrite (IH r l Hnd) by (auto; cbn in Hlen; lia).
    reflexivity.
Qed.

Lemma filter_eqb_absent : forall (cols : list string) (l : string),
  ~ In l cols -> filter (String.eqb l) cols = [].
Proof.
  induction cols as [|c cols IH]; intros l Hn; [reflexivity|].
  cbn [filter]. destruct (String.eqb_spec l c) as [->|_].
  - exfalso. apply Hn. now left.
  - apply IH. intros H. apply Hn. now right.
Qed.

Lemma filter_eqb_unique : forall (cols : list string) (l : string),
  NoDup cols -> In l cols -> filter (String.eqb l) cols = [l].
Proof.
  induction cols as [|c cols IH]; intros l Hnd Hin; [destruct Hin|].
  apply NoDup_cons_iff in Hnd as [Hc Hnd]. cbn [filter].
  destruct (String.eqb_spec l c) as [->|Hne].
  - now rewrite (filter_eqb_absent cols c Hc).
  - destruct Hin as [->|Hin]; [contradiction|]. now apply IH.
Qed.

Lemma flat_map_singletons {A B : Type} (f : A -> list B) (g : A -> B) :
  forall ls, (forall l, In l ls -> f l = [g l]) -> flat_map f ls = map g ls.
Proof.
  induction ls as [|l ls IH]; intros H; [reflexivity|].
  cbn [flat_map map]. rewrite (H l) by now left.
  rewrite IH by (intros; apply H; now right). reflexivity.
Qed.

(** Assigning the Series keeps every other cell and sets the labelled one. *)
Lemma lookup_all_set_cells (label : string) (x : float) :
  forall (cols : list string) (r : list value) (l : string),
  lookup_all cols (set_cells cols label r x) l
  = if String.eqb l label
    then map (fun _ => VFloat x) (lookup_all cols r l)
    else lookup_all cols r l.
Proof.
  induction cols as [|c cols IH]; intros r l.
  - now destruct (String.eqb l label).
  - destruct r as [|v r].
    + now destruct (String.eqb l label).
    + unfold set_cells. cbn [combine map fst snd].
      fold (set_cells cols label r x). rewrite !lookup_all_cons, IH.
      destruct (String.eqb_spec c l) as [->|Hne].
      * destruct (String.eqb l label); reflexivity.
      * destruct (String.eqb l label); reflexivity.
Qed.

Lemma set_cells_length (label : string) (x : float) :
  forall (cols : list string) (r : list value),
  List.length r = List.length cols ->
  List.length (set_cells cols label r x) = List.length cols.
Proof.
  intros cols r H. unfold set_cells.
  rewrite length_map, length_combine. lia.
Qed.

Lemma lookup_all_snoc (label : string) (y : value) :
  forall (cols : list string) (r : list value) (l : string),
  List.length r = List.length cols ->
  lookup_all (cols ++ [label]) (r ++ [y]) l
  = lookup_all cols r l ++ (if String.eqb label l then [y] else []).
Proof.
  induction cols as [|c cols IH]; intros r l Hlen.
  - destruct r; [|discriminate]. cbn [app]. rewrite lookup_all_cons.
    now rewrite app_nil_r.
  - destruct r as [|v r]; [discriminate|].
    cbn [app]. rewrite !lookup_all_cons, IH by (cbn in Hlen; lia).
    now rewrite app_assoc.
Qed.

Lemma apply_rows_Forall2 (f : list value -> exn + float) :
  forall rs xs, apply_rows f rs = inr xs ->
  Forall2 (fun r x => f r = inr x) rs xs.
Proof.
  induction rs as [|r rs IH]; intros xs H; cbn [apply_rows] in H.
  - injection H as <-. constructor.
  - destruct (f r) as [e|x] eqn:Hf; [discriminate|].
    destruct (apply_rows f rs) as [e|xs']; [discriminate|].
    injection H as <-. constructor; [assumption|]. now apply IH.
Qed.

Lemma apply_rows_total (f : list value -> exn + float) :
  forall rs, (forall r, In r rs -> exists x, f r = inr x) ->
  exists xs, apply_rows f rs = inr xs.
Proof.
  induction rs as [|r rs IH]; intros H; cbn [apply_rows].
  - now exists [].
  - destruct (H r (or_introl eq_refl)) as [x ->].
    destruct IH as [xs ->]; [intros; apply H; now right|].
    now exists (x :: xs).
Qed.

Lemma zip_with_Forall2 {A B C : Type} (h : A -> B -> C) (P : A -> B -> Prop) :
  forall xs ys, Forall2 P xs ys ->
  Forall2 (fun a c => exists b, P a b /\ c = h a b) xs (zip_with h xs ys).
Proof.
  induction 1; cbn [zip_with]; constructor; eauto.
Qed.

End Projection.

Section ProjectorResult.

Variable w : World.

Lemma missing_labels_none (cols : list string) :
  forall labels, (forall l, In l labels -> In l cols) ->
  missing_labels cols labels = [].
Proof.
  induction labels as [|l labels IH]; intros H; [reflexivity|].
  unfold missing_labels. cbn [filter].
  rewrite (proj2 (has_label_In cols l)) by (apply H; now left).
  cbn [negb]. apply IH. intros; apply H; now right.
Qed.

(** Selection on a frame whose labels do not repeat. *)
Lemma select_unique (cols : list string) (rs : list (list value))
  (labels : list string) :
  NoDup cols ->
  Forall (fun r => List.length r = List.length cols) rs ->
  (forall l, In l labels -> In l cols) ->
  select (mkFrame cols rs) labels
  = inr (mkFrame labels (map (fun r => map (cell cols r) labels) rs)).
Proof.
  intros Hnd Hwf Hin. unfold select. cbn [columns rows].
  rewrite (missing_labels_none cols labels Hin). f_equal. f_equal.
  - rewrite (flat_map_singletons _ (fun l => l)).
    + apply map_id.
    + intros l Hl. apply filter_eqb_unique; auto.
  - apply map_ext_in. intros r Hr.
    apply flat_map_singletons. intros l Hl.
    apply lookup_all_unique; auto.
    rewrite Forall_forall in Hwf. now apply Hwf.
Qed.

Lemma select_present (df out : DataFrame) (labels : list string) :
  select df labels = inr out -> forall l, In l labels -> In l (columns df).
Proof.
  unfold select. destruct (missing_labels (columns df) labels) eqn:Hm;
    [|discriminate].
  intros _. now apply missing_labels_nil.
Qed.

Lemma count_label_all (label : string) : forall cols,
  count_label cols label = List.length cols ->
  forall c, In c cols -> c = label.
Proof.
  unfold count_label. induction cols as [|c0 cols IH]; intros H c Hin;
    [destruct Hin|].
  cbn [filter] in H. destruct (String.eqb_spec label c0) as [<-|Hne].
  - cbn [List.length] in H. destruct Hin as [<-|Hin]; [reflexivity|].
    apply IH; [lia|assumption].
  - pose proof (filter_length_le (String.eqb label) cols). cbn in H. lia.
Qed.

(** The four cells of a row whose coordinate labels occur once each go to
    [geodesic] as they are. *)
Lemma calculate_distance_scalars (cols : list string) (row : list value)
  (a b c d : value) :
  lookup_all cols row "previous_latitude" = [a] ->
  lookup_all cols row "previous_longitude" = [b] ->
  lookup_all cols row "next_latitude" = [c] ->
  lookup_all cols row "next_longitude" = [d] ->
  calculate_distance w cols row
  = geodesic w (Scalar a, Scalar b) (Scalar c, Scalar d).
Proof.
  intros Ha Hb Hc Hd. unfold calculate_distance, getitem.
  now rewrite Ha, Hb, Hc, Hd.
Qed.

(** The cells of an output row, column by column. *)
Lemma projected_cells_replaced (cols : list string) (r : list value)
  (x : float) :
  NoDup cols -> List.length r = List.length cols ->
  In "between_coords_distance_m" cols ->
  (forall l, In l output_columns -> In l cols) ->
  map (cell cols (set_cells cols "between_coords_distance_m" r x))
      output_columns
  = projected_row cols r x.
Proof.
  intros Hnd Hlen Hlab Hin. unfold projected_row. apply map_ext_in.
  intros l Hl. unfold cell at 1. rewrite lookup_all_set_cells.
  rewrite (lookup_all_unique cols r l Hnd Hlen (Hin l Hl)).
  now destruct (String.eqb l "between_coords_distance_m").
Qed.

Lemma projected_cells_appended (cols : list string) (r : list value)
  (x : float) :
  NoDup cols -> List.length r = List.length cols ->
  ~ In "between_coords_distance_m" cols ->
  (forall l, In l output_columns ->
             In l (cols ++ ["between_coords_distance_m"])) ->
  map (cell (cols ++ ["between_coords_distance_m"]) (r ++ [VFloat x]))
      output_columns
  = projected_row cols r x.
Proof.
  intros Hnd Hlen Hlab Hin. unfold projected_row. apply map_ext_in.
  intros l Hl. unfold cell at 1. rewrite lookup_all_snoc by assumption.
  rewrite (String.eqb_sym "between_coords_distance_m" l).
  destruct (String.eqb_spec l "between_coords_distance_m") as [->|Hne].
  - now rewrite (lookup_all_absent cols r _ Hlab).
  - rewrite app_nil_r. specialize (Hin l Hl).
    apply in_app_or in Hin as [Hin|[Heq|[]]]; [|congruence].
    now rewrite (lookup_all_unique cols r l Hnd Hlen Hin).
Qed.

Lemma rows_projected (cols : list string)
  (h : list value -> float -> list value)
  (F : list value -> list value) :
  (forall r x, List.length r = List.length cols ->
               F (h r x) = projected_row cols r x) ->
  forall rs xs,
    Forall (fun r => List.length r = List.length cols) rs ->
    Forall2 (fun r x => calculate_distance w cols r = inr x) rs xs ->
    Forall2 (fun r r' => exists x, calculate_distance w cols r = inr x /\
                                   r' = projected_row cols r x)
            rs (map F (zip_with h rs xs)).
Proof.
  intros HF rs xs Hwf H2. induction H2 as [|r x rs xs Hrx H2 IH];
    cbn [zip_with map]; constructor.
  - exists x. split; [assumption|]. apply HF. now inversion Hwf.
  - apply IH. now inversion Hwf.
Qed.

Lemma zip_with_lengths {A B C : Type} (h : A -> B -> C) (P : C -> Prop)
  (Q : A -> Prop) :
  (forall a b, Q a -> P (h a b)) ->
  forall xs ys, Forall Q xs -> Forall P (zip_with h xs ys).
Proof.
  intros H xs. induction xs as [|a xs IH]; intros ys Hq; [constructor|].
  destruct ys as [|b ys]; [constructor|].
  cbn [zip_with]. inversion Hq; subst. constructor; auto.
Qed.

(** What the projection returns when [apply] produced a Series. *)
Lemma projector_on_series (df : DataFrame) (xs : list float) (out : DataFrame) :
  NoDup (columns df) -> wf_frame df ->
  Forall2 (fun r x => calculate_distance w (columns df) r = inr x)
          (rows df) xs ->
  match setitem df "between_coords_distance_m" (AppliedSeries xs) with
  | inl e => inl e
  | inr df' => select df' output_columns
  end = inr out ->
  columns out = output_columns /\
  Forall2 (fun r r' => exists x,
             calculate_distance w (columns df) r = inr x /\
             r' = projected_row (columns df) r x)
          (rows df) (rows out).
Proof.
  intros Hnd Hwf H2 Hsel. destruct df as [cols rs].
  unfold wf_frame in Hwf. cbn [columns rows] in *.
  unfold setitem in Hsel. cbn [columns rows] in Hsel.
  destruct (has_label cols "between_coords_distance_m") eqn:Hlab.
  - apply has_label_In in Hlab.
    pose proof (select_present _ _ _ Hsel) as Hin. cbn [columns] in Hin.
    rewrite select_unique in Hsel; try assumption.
    + injection Hsel as <-. cbn [columns rows]. split; [reflexivity|].
      apply rows_projected; try assumption.
      intros r x Hlen. now apply projected_cells_replaced.
    + apply zip_with_lengths with (Q := fun r => List.length r = List.length cols);
        [|assumption].
      intros r x Hlen. now apply set_cells_length.
  - apply has_label_not_In in Hlab.
    pose proof (select_present _ _ _ Hsel) as Hin. cbn [columns] in Hin.
    rewrite select_unique in Hsel; try assumption.
    + injection Hsel as <-. cbn [columns rows]. split; [reflexivity|].
      apply rows_projected; try assumption.
      intros r x Hlen. now apply projected_cells_appended.
    + apply NoDup_app; [assumption|repeat constructor; intros []|].
      intros l Hl [<-|[]]. contradiction.
    + apply zip_with_lengths with (Q := fun r => List.length r = List.length cols);
        [|assumption].
      intros r x Hlen. rewrite !length_app. cbn. lia.
Qed.

(** A frame without rows or without columns is never projected. *)
Lemma projector_on_copy (df out : DataFrame) :
  match setitem df "between_coords_distance_m" AppliedCopy with
  | inl e => inl e
  | inr df' => select df' output_columns
  end <> inr out.
Proof.
  intros Hsel. unfold setitem in Hsel.
  destruct (has_label (columns df) "between_coords_distance_m").
  - destruct (Nat.eqb_spec (count_label (columns df) "between_coords_distance_m")
                           (List.length (columns df))) as [Hall|_];
      [|discriminate].
    pose proof (select_present _ _ _ Hsel "icao24") as Hin.
    specialize (Hin ltac:(cbn; tauto)).
    apply (count_label_all _ _ Hall) in Hin. discriminate.
  - destruct (columns df) as [|c [|c' cols]] eqn:Hcols; try discriminate.
    pose proof (select_present _ _ _ Hsel "icao24" ltac:(cbn; tauto)) as H1.
    pose proof (select_present _ _ _ Hsel "callsign" ltac:(cbn; tauto)) as H2.
    cbn in H1, H2.
    destruct H1 as [H1|[H1|[]]]; [|discriminate].
    destruct H2 as [H2|[H2|[]]]; [|discriminate].
    congruence.
Qed.

End ProjectorResult.

Section ProjectorFailure.

Variable w : World.

Lemma apply_rows_error (f : list value -> exn + float) (e : exn) :
  forall rs, apply_rows f rs = inl e -> exists r, In r rs /\ f r = inl e.
Proof.
  induction rs as [|r rs IH]; intros H; cbn [apply_rows] in H; [discriminate|].
  destruct (f r) as [e'|x] eqn:Hf.
  - injection H as ->. exists r. split; [now left|assumption].
  - destruct (apply_rows f rs) as [e'|xs]; [|discriminate].
    injection H as ->. destruct (IH eq_refl) as (r' & Hin & Hr').
    exists r'. split; [now right|assumption].
Qed.

Lemma lookup_all_nil_absent : forall (cols : list string) (r : list value)
  (l : string),
  List.length r = List.length cols -> lookup_all cols r l = [] -> ~ In l cols.
Proof.
  induction cols as [|c cols IH]; intros r l Hlen H Hin; [destruct Hin|].
  destruct r as [|v r]; [discriminate|].
  rewrite lookup_all_cons in H.
  destruct (String.eqb_spec c l) as [->|Hne]; [discriminate|].
  destruct Hin as [->|Hin]; [contradiction|].
  cbn [app] in H. apply (IH r l); auto.
Qed.

(** [calculate_distance] raises either the KeyError of a coordinate label
    the row does not have, or what [geodesic] raised. *)
Lemma calculate_distance_error (cols : list string) (row : list value)
  (e : exn) :
  calculate_distance w cols row = inl e ->
  (exists l, In l required_columns /\ lookup_all cols row l = [] /\
             e = KeyError l) \/
  (exists p q, geodesic w p q = inl e).
Proof.
  unfold calculate_distance, getitem. intros H.
  destruct (lookup_all cols row "previous_latitude") as [|a [|a' la]] eqn:Ha;
    [injection H as <-; left; exists "previous_latitude";
       repeat split; cbn; tauto | |];
  (destruct (lookup_all cols row "previous_longitude") as [|b [|b' lb]] eqn:Hb;
    [injection H as <-; left; exists "previous_longitude";
       repeat split; cbn; tauto | |]);
  (destruct (lookup_all cols row "next_latitude") as [|c [|c' lc]] eqn:Hc;
    [injection H as <-; left; exists "next_latitude";
       repeat split; cbn; tauto | |]);
  (destruct (lookup_all cols row "next_longitude") as [|d [|d' ld]] eqn:Hd;
    [injection H as <-; left; exists "next_longitude";
       repeat split; cbn; tauto | |]);
  right; eauto.
Qed.

Lemma output_label_cases (l : string) :
  In l output_columns ->
  l = "between_coords_distance_m" \/ In l required_columns.
Proof.
  unfold output_columns, required_columns. cbn [In].
  intros H. repeat (destruct H as [<-|H]; [tauto|]). destruct H.
Qed.

Lemma required_in_output (l : string) :
  In l required_columns -> In l output_columns.
Proof.
  unfold output_columns, required_columns. cbn [In].
  intros H. repeat (destruct H as [<-|H]; [tauto|]). destruct H.
Qed.

Lemma required_not_distance (l : string) :
  In l required_columns -> l <> "between_coords_distance_m".
Proof.
  unfold required_columns. cbn [In].
  intros H. repeat (destruct H as [<-|H]; [discriminate|]). destruct H.
Qed.

(** The final selection raises when a required column is absent. *)
Lemma select_missing (cols : list string) (df' : DataFrame) (c : string) :
  In c required_columns -> ~ In c cols ->
  (forall l, In l (columns df') <->
             In l cols \/ l = "between_coords_distance_m") ->
  exists m, select df' output_columns = inl (KeyError m) /\
            In m required_columns /\ ~ In m cols.
Proof.
  intros Hreq Habs Hcols. unfold select.
  destruct (missing_labels (columns df') output_columns) as [|m rest] eqn:Hm.
  - exfalso. apply Habs.
    pose proof (missing_labels_nil _ _ Hm c (required_in_output c Hreq)) as Hin.
    apply Hcols in Hin as [H|H]; [assumption|].
    now apply required_not_distance in Hreq.
  - exists m. split; [reflexivity|].
    apply missing_labels_head in Hm as [Hout Hn].
    destruct (output_label_cases m Hout) as [->|Hr].
    + exfalso. apply Hn. apply Hcols. now right.
    + split; [assumption|]. intros Hin. apply Hn. apply Hcols. now left.
Qed.

Lemma columns_after_series (df : DataFrame) (xs : list float) :
  exists df', setitem df "between_coords_distance_m" (AppliedSeries xs)
              = inr df' /\
    forall l, In l (columns df') <->
              In l (columns df) \/ l = "between_coords_distance_m".
Proof.
  unfold setitem.
  destruct (has_label (columns df) "between_coords_distance_m") eqn:Hlab.
  - eexists; split; [reflexivity|]. cbn [columns]. intros l. split; [tauto|].
    intros [H| ->]; [assumption|]. now apply has_label_In.
  - eexists; split; [reflexivity|]. cbn [columns]. intros l.
    rewrite in_app_iff. cbn [In]. intuition congruence.
Qed.

Lemma columns_after_copy (df df' : DataFrame) :
  setitem df "between_coords_distance_m" AppliedCopy = inr df' ->
  forall l, In l (columns df') <->
            In l (columns df) \/ l = "between_coords_distance_m".
Proof.
  unfold setitem.
  destruct (has_label (columns df) "between_coords_distance_m") eqn:Hlab.
  - destruct (Nat.eqb _ _); [|discriminate]. intros [= <-] l.
    split; [tauto|]. intros [H| ->]; [assumption|]. now apply has_label_In.
  - destruct (columns df) as [|c0 [|c1 cols]] eqn:Hc; try discriminate.
    intros [= <-] l. cbn [columns app In]. intuition congruence.
Qed.

Lemma setitem_copy_error (df : DataFrame) (e : exn) :
  setitem df "between_coords_distance_m" AppliedCopy = inl e ->
  exn_class e = "ValueError".
Proof.
  unfold setitem.
  destruct (has_label (columns df) "between_coords_distance_m").
  - destruct (Nat.eqb _ _); [discriminate|]. now intros [= <-].
  - destruct (columns df) as [|c0 [|c1 cols]]; try discriminate;
      now intros [= <-].
Qed.

Lemma apply_axis1_copy (f : list string -> list value -> exn + float)
  (df : DataFrame) :
  apply_axis1 f df = inr AppliedCopy -> rows df = [] \/ columns df = [].
Proof.
  unfold apply_axis1. destruct (rows df) as [|r rs]; [now left|].
  destruct (columns df) as [|c cols]; [now right|].
  destruct (apply_rows _ _); discriminate.
Qed.

Lemma apply_axis1_error (f : list string -> list value -> exn + float)
  (df : DataFrame) (e : exn) :
  apply_axis1 f df = inl e ->
  exists r, In r (rows df) /\ f (columns df) r = inl e.
Proof.
  unfold apply_axis1. destruct (rows df) as [|r rs] eqn:Hr.
  - destruct (f (columns df) (nan_row (columns df))); discriminate.
  - destruct (columns df) as [|c cols] eqn:Hc.
    + destruct (f [] (nan_row [])); discriminate.
    + destruct (apply_rows (f (c :: cols)) (r :: rs)) as [e'|xs] eqn:Ha;
        [|discriminate].
      intros [= ->]. now apply apply_rows_error.
Qed.

End ProjectorFailure.

(** C8, counterexample. On a result set without the column [icao24] the
    projection does not start with a presence check: the coordinates are
    read and the distances computed first, so that with a latitude the
    geodesic rejects the failure is the ValueError of the geodesic; and
    where the distances go through, the failure is the KeyError of the
    final selection. *)
Lemma missing_column_is_not_checked_first :
  ~ In "icao24" (columns frame_without_icao24_latitude_91) /\
  ResultProjector world_geopy_like frame_without_icao24_latitude_91
  = inl (ValueError "Latitude must be in the [-90; 90] range.") /\
  ~ In "icao24" (columns frame_without_icao24) /\
  ResultProjector world_ok frame_without_icao24 = inl (KeyError "icao24").
Proof.
  repeat split; try reflexivity; cbn; intuition discriminate.
Qed.

(** C8, as the script has it. On a well-formed table that lacks a required
    column the projection always fails, and it fails in one of three ways:
    with the KeyError of a required column that is absent (raised by the
    row lookup of the distance computation or by the final selection), or
    with what the geodesic raised on a row, or, on a table without rows or
    without columns, with the ValueError of the column assignment. *)
Theorem projector_fails_on_missing_column
  (w : World) (df : DataFrame) (c : string) :
  wf_frame df ->
  In c required_columns ->
  ~ In c (columns df) ->
  exists e,
    ResultProjector w df = inl e /\
    ((exists l, In l required_columns /\ ~ In l (columns df) /\
                e = KeyError l) \/
     (exists p q, geodesic w p q = inl e) \/
     ((rows df = [] \/ columns df = []) /\ exn_class e = "ValueError")).
Proof.
  intros Hwf Hreq Habs. unfold ResultProjector.
  destruct (apply_axis1 (calculate_distance w) df) as [e|[xs|]] eqn:Ha.
  - exists e. split; [reflexivity|].
    apply apply_axis1_error in Ha as (r & Hr & He).
    apply calculate_distance_error in He as [(l & Hl & Hnil & ->)|Hg].
    + left. exists l. repeat split; try assumption.
      apply (lookup_all_nil_absent _ r); [|assumption].
      unfold wf_frame in Hwf. rewrite Forall_forall in Hwf. now apply Hwf.
    + right. now left.
  - destruct (columns_after_series df xs) as (df' & -> & Hcols).
    destruct (select_missing (columns df) df' c Hreq Habs Hcols)
      as (m & -> & Hm & Hn).
    exists (KeyError m). split; [reflexivity|]. left. now exists m.
  - destruct (setitem df "between_coords_distance_m" AppliedCopy)
      as [e|df'] eqn:Hset.
    + exists e. split; [reflexivity|]. right. right.
      split; [now apply apply_axis1_copy in Ha|].
      now apply setitem_copy_error in Hset.
    + destruct (select_missing (columns df) df' c Hreq Habs
                  (columns_after_copy df df' Hset)) as (m & -> & Hm & Hn).
      exists (KeyError m). split; [reflexivity|]. left. now exists m.
Qed.

Lemma projector_fails_on_missing_column_witness :
  exists e,
    ResultProjector world_ok frame_without_icao24 = inl e /\
    ((exists l, In l required_columns /\
                ~ In l (columns frame_without_icao24) /\ e = KeyError l) \/
     (exists p q, geodesic world_ok p q = inl e) \/
     ((rows frame_without_icao24 = [] \/ columns frame_without_icao24 = []) /\
      exn_class e = "ValueError")).
Proof.
  apply (projector_fails_on_missing_column world_ok frame_without_icao24
           "icao24").
  - repeat constructor.
  - now left.
  - cbn. intuition discriminate.
Defined.

Section ProjectorSuccess.

Variable w : World.

Lemma apply_axis1_series (df : DataFrame) (xs : list float) :
  apply_axis1 (calculate_distance w) df = inr (AppliedSeries xs) ->
  Forall2 (fun r x => calculate_distance w (columns df) r = inr x)
          (rows df) xs.
Proof.
  unfold apply_axis1. destruct (rows df) as [|r rs].
  - destruct (calculate_distance w (columns df) (nan_row (columns df)));
      [discriminate|]. intros [= <-]. constructor.
  - destruct (columns df) as [|c cols].
    + cbn. discriminate.
    + destruct (apply_rows _ _) as [e|xs'] eqn:Ha; [discriminate|].
      intros [= <-]. now apply apply_rows_Forall2.
Qed.

(** On a well-formed row of a table with distinct labels the four
    coordinate cells go to [geodesic] unchanged. *)
Lemma calculate_distance_cells (cols : list string) (row : list value) :
  NoDup cols -> List.length row = List.length cols ->
  In "previous_latitude" cols -> In "previous_longitude" cols ->
  In "next_latitude" cols -> In "next_longitude" cols ->
  calculate_distance w cols row
  = geodesic w (Scalar (cell cols row "previous_latitude"),
                Scalar (cell cols row "previous_longitude"))
               (Scalar (cell cols row "next_latitude"),
                Scalar (cell cols row "next_longitude")).
Proof.
  intros Hnd Hlen H1 H2 H3 H4.
  apply calculate_distance_scalars; now apply lookup_all_unique.
Qed.

Lemma apply_axis1_rows (f : list string -> list value -> exn + float)
  (df : DataFrame) :
  rows df <> [] -> columns df <> [] ->
  apply_axis1 f df
  = match apply_rows (f (columns df)) (rows df) with
    | inl e => inl e
    | inr xs => inr (AppliedSeries xs)
    end.
Proof.
  unfold apply_axis1. destruct (rows df); [congruence|].
  destruct (columns df); [congruence|reflexivity].
Qed.

Lemma select_total (df' : DataFrame) (labels : list string) :
  (forall l, In l labels -> In l (columns df')) ->
  exists out, select df' labels = inr out.
Proof.
  intros H. unfold select. rewrite (missing_labels_none _ _ H). eauto.
Qed.

End ProjectorSuccess.

(** C4, counterexample. A result set in which a column name comes twice is
    projected to a table of 17 columns: the selection answers the label
    [icao24] with both columns. *)
Lemma duplicate_label_widens_output :
  exists out,
    ResultProjector world_ok frame_duplicate_icao24 = inr out /\
    List.length (columns out) = 17%nat /\
    columns out <> output_columns.
Proof.
  eexists. split; [vm_compute; reflexivity|].
  split; [reflexivity|discriminate].
Qed.

(** C4, as the script has it. For a well-formed table whose column names
    are distinct: whenever the projection returns a table, that table has
    the 16 columns of [output_columns] in that order and one row per input
    row, in the input order, each made of the cells of its input row with
    the distance in its place; and the projection does return a table when
    the input has at least one row, the 15 required columns are present and
    the geodesic answers for the coordinates of every row. *)
Theorem projector_keeps_rows_and_orders_columns (w : World) (df : DataFrame) :
  NoDup (columns df) ->
  wf_frame df ->
  (forall out, ResultProjector w df = inr out ->
     columns out = output_columns /\
     List.length (columns out) = 16%nat /\
     List.length (rows out) = List.length (rows df) /\
     Forall2 (fun r r' => exists x,
                calculate_distance w (columns df) r = inr x /\
                r' = projected_row (columns df) r x)
             (rows df) (rows out)) /\
  (rows df <> [] ->
   (forall l, In l required_columns -> In l (columns df)) ->
   (forall r, In r (rows df) ->
      exists x,
        geodesic w (Scalar (cell (columns df) r "previous_latitude"),
                    Scalar (cell (columns df) r "previous_longitude"))
                   (Scalar (cell (columns df) r "next_latitude"),
                    Scalar (cell (columns df) r "next_longitude"))
        = inr x) ->
   exists out, ResultProjector w df = inr out).
Proof.
  intros Hnd Hwf. split.
  - intros out Hout. unfold ResultProjector in Hout.
    destruct (apply_axis1 (calculate_distance w) df) as [e|[xs|]] eqn:Ha;
      [discriminate| |].
    + apply apply_axis1_series in Ha.
      destruct (projector_on_series w df xs out Hnd Hwf Ha Hout) as [Hc Hr].
      repeat split; try assumption.
      * now rewrite Hc.
      * symmetry. exact (Forall2_length Hr).
    + exfalso. exact (projector_on_copy df out Hout).
  - intros Hrows Hreq Hgeo. unfold ResultProjector.
    rewrite apply_axis1_rows; [|assumption|].
    2:{ intros Hc. specialize (Hreq "icao24" ltac:(now left)).
        rewrite Hc in Hreq. destruct Hreq. }
    destruct (apply_rows_total (calculate_distance w (columns df)) (rows df))
      as [xs ->].
    { intros r' Hr'.
      rewrite calculate_distance_cells; try assumption.
      - now apply Hgeo.
      - unfold wf_frame in Hwf. rewrite Forall_forall in Hwf.
        now apply Hwf.
      - apply Hreq. cbn; tauto.
      - apply Hreq. cbn; tauto.
      - apply Hreq. cbn; tauto.
      - apply Hreq. cbn; tauto. }
    destruct (columns_after_series df xs) as (df' & -> & Hcols).
    apply select_total. intros l Hl. apply Hcols.
    destruct (output_label_cases l Hl) as [->|Hl']; [now right|].
    left. now apply Hreq.
Qed.

Lemma projector_keeps_rows_and_orders_columns_witness :
  exists out,
    ResultProjector world_ok sample_frame = inr out /\
    columns out = output_columns /\
    List.length (rows out) = 2%nat.
Proof.
  destruct (projector_keeps_rows_and_orders_columns world_ok sample_frame)
    as [Hshape Htotal].
  - repeat constructor; cbn; intuition discriminate.
  - repeat constructor.
  - destruct Htotal as [out Hout].
    + discriminate.
    + intros l Hl. exact Hl.
    + intros r Hr. now exists 11500%float.
    + exists out. destruct (Hshape out Hout) as (Hc & _ & Hn & _).
      repeat split; assumption.
Defined.

(* ================================================================== *)
(** * The distance of a row *)

(** C7, counterexample. [calculate_distance] checks nothing itself.  With a
    geodesic that behaves as geopy 2 does, a latitude of 91 degrees ends in
    the ValueError of the library, which is passed on as it is, and a
    longitude of 181 degrees is accepted and a distance returned. *)
Lemma out_of_range_is_left_to_geodesic :
  calculate_distance world_geopy_like source_columns row_latitude_91
  = inl (Exn "ValueError" "Latitude must be in the [-90; 90] range.") /\
  calculate_distance world_geopy_like source_columns row_longitude_181
  = inr 11500%float.
Proof. split; reflexivity. Qed.

(** C7, as the script has it. [calculate_distance] is a function of the row
    and does no validation.  On a well-formed row of a table with distinct
    labels: when the four coordinate columns are there, it returns exactly
    what [geodesic] returns for the four cells and raises exactly what
    [geodesic] raises for them; and whenever it raises, the exception is
    either the KeyError of a coordinate column the table does not have or
    the exception [geodesic] raised. *)
Theorem calculate_distance_forwards_to_geodesic
  (w : World) (cols : list string) (row : list value) :
  NoDup cols ->
  List.length row = List.length cols ->
  (In "previous_latitude" cols -> In "previous_longitude" cols ->
   In "next_latitude" cols -> In "next_longitude" cols ->
   calculate_distance w cols row
   = geodesic w (Scalar (cell cols row "previous_latitude"),
                 Scalar (cell cols row "previous_longitude"))
                (Scalar (cell cols row "next_latitude"),
                 Scalar (cell cols row "next_longitude"))) /\
  (forall e, calculate_distance w cols row = inl e ->
     (exists l, In l required_columns /\ ~ In l cols /\ e = KeyError l) \/
     (exists p q, geodesic w p q = inl e)).
Proof.
  intros Hnd Hlen. split.
  - intros H1 H2 H3 H4.
    apply calculate_distance_scalars; now apply lookup_all_unique.
  - intros e He.
    apply calculate_distance_error in He as [(l & Hl & Hnil & ->)|Hg].
    + left. exists l. repeat split; [assumption|].
      now apply (lookup_all_nil_absent cols row).
    + now right.
Qed.

Lemma calculate_distance_forwards_to_geodesic_witness :
  calculate_distance world_geopy_like source_columns row_longitude_181
  = geodesic world_geopy_like
      (Scalar (VFloat 47.5%float), Scalar (VFloat 181%float))
      (Scalar (VFloat 47.625%float), Scalar (VFloat 8.75%float)).
Proof.
  refine (proj1 (calculate_distance_forwards_to_geodesic world_geopy_like
                   source_columns row_longitude_181 _ _) _ _ _ _).
  - repeat constructor; cbn; intuition discriminate.
  - reflexivity.
  - cbn; tauto.
  - cbn; tauto.
  - cbn; tauto.
  - cbn; tauto.
Defined.

(* ================================================================== *)
(** * The run as a whole *)

Section RunInvariants.

Variable w : World.

(** What the closing block does to the two handles. *)
Lemma cleanup_closed (s : State) :
  match cursor_close w (submitted s) with
  | Some _ =>
      cursor_closed (snd (cleanup w s)) = cursor_closed s /\
      conn_closed (snd (cleanup w s)) = conn_closed s
  | None =>
      cursor_closed (snd (cleanup w s)) = true /\
      conn_closed (snd (cleanup w s))
      = match conn_close w (submitted s) with
        | Some _ => conn_closed s
        | None => true
        end
  end.
Proof.
  unfold cleanup, try_except, bind, close_cursor, close_conn, logging_error.
  destruct (cursor_close w (submitted s)) as [e|]; cbn [submitted].
  - split; reflexivity.
  - destruct (conn_close w (submitted s)) as [e|]; split; reflexivity.
Qed.



(** With a stride that is not positive the loop does not come to its end:
    a head raises or the passes go on for ever. *)
Lemma window_iterator_backwards (cfg : Config) :
  delta cfg <= 0 ->
  forall fuel cur ps,
    cur < end_date cfg -> window_iterator w cfg fuel cur <> Ok ps.
Proof.
  intros Hd. induction fuel as [|fuel IH]; intros cur ps Hlt H;
    [discriminate|].
  rewrite window_iterator_step in H.
  replace (cur <? end_date cfg) with true in H
    by (symmetry; apply Z.ltb_lt; assumption).
  destruct (dt_add cur (delta cfg)) as [next|] eqn:Hadd; [|discriminate].
  apply dt_add_Some in Hadd as [-> _].
  destruct (local_timestamp w cur); [discriminate|].
  destruct (local_timestamp w (cur + delta cfg)); [discriminate|].
  destruct (window_iterator w cfg fuel (cur + delta cfg)) as [ps'|e|] eqn:Hit;
    try discriminate.
  apply (IH (cur + delta cfg) ps'); [lia|exact Hit].
Qed.

End RunInvariants.

(** X1. When the connection cannot be made, the failure is logged twice,
    once by [connect_to_database] and once by [main], and the run ends
    there, normally: nothing is submitted, written or closed. *)
Theorem connection_failure_is_logged_twice
  (w : World) (cfg : Config) (fuel : nat) (e : exn) :
  connect w = Some e ->
  fst (main w cfg fuel initial) = Ok tt /\
  log (snd (main w cfg fuel initial))
  = [ (ERROR, ("Failed to connect to the database: " ++ exn_msg e)%string);
      (ERROR, ("Could not establish database connection: "
               ++ exn_msg e)%string) ] /\
  submitted (snd (main w cfg fuel initial)) = [] /\
  written (snd (main w cfg fuel initial)) = [] /\
  stdout (snd (main w cfg fuel initial)) = [] /\
  cursor_closed (snd (main w cfg fuel initial)) = false /\
  conn_closed (snd (main w cfg fuel initial)) = false.
Proof.
  intros Hc. rewrite (main_connect_fails w cfg fuel e Hc).
  repeat split.
Qed.

Lemma connection_failure_is_logged_twice_witness :
  log (snd (main world_connect_fails repo_config 366 initial))
  = [ (ERROR, "Failed to connect to the database: failed to connect");
      (ERROR, "Could not establish database connection: failed to connect") ].
Proof.
  exact (proj1 (proj2 (connection_failure_is_logged_twice
                         world_connect_fails repo_config 366
                         (Exn "TrinoConnectionError" "failed to connect")
                         eq_refl))).
Defined.

(** X2. The closing block never raises.  When [cursor.close()] raises, the
    failure is logged and [conn.close()] is not called; when
    [conn.close()] raises, the failure is logged and the cursor stays
    closed. *)
Theorem closing_block_logs_its_failure (w : World) (s : State) (e : exn) :
  (cursor_close w (submitted s) = Some e ->
   cleanup w s
   = (Ok tt,
      mkState (log s ++ [(ERROR, ("Failed to close database connection: "
                                  ++ exn_msg e)%string)])
              (stdout s) (submitted s) (written s)
              (cursor_closed s) (conn_closed s))) /\
  (cursor_close w (submitted s) = None ->
   conn_close w (submitted s) = Some e ->
   cleanup w s
   = (Ok tt,
      mkState (log s ++ [(ERROR, ("Failed to close database connection: "
                                  ++ exn_msg e)%string)])
              (stdout s) (submitted s) (written s)
              true (conn_closed s))).
Proof.
  unfold cleanup, try_except, bind, close_cursor, close_conn, logging_error.
  split.
  - intros ->. reflexivity.
  - intros -> . cbn [submitted]. intros ->. reflexivity.
Qed.

Lemma closing_block_logs_its_failure_witness :
  cleanup world_cursor_close_fails prepared_state
  = (Ok tt,
     mkState (log prepared_state
              ++ [(ERROR,
                   "Failed to close database connection: connection reset")])
             [] [prepared_statement] [] false false).
Proof.
  exact (proj1 (closing_block_logs_its_failure world_cursor_close_fails
                  prepared_state
                  (Exn "TrinoConnectionError" "connection reset"))
               eq_refl).
Defined.




(** X5. In every run the connection is closed only after the cursor. *)
Theorem connection_closed_only_after_cursor
  (w : World) (cfg : Config) (fuel : nat) :
  conn_closed (snd (main w cfg fuel initial)) = true ->
  cursor_closed (snd (main w cfg fuel initial)) = true.
Proof.
  destruct (connect w) as [e|] eqn:Hc.
  { rewrite (main_connect_fails w cfg fuel e Hc). cbn. discriminate. }
  destruct (cursor_execute w [] prepared_statement) as [e|] eqn:Hp.
  { rewrite (main_prepare_fails w cfg fuel e Hc Hp).
    unfold bind, close_cursor, close_conn. cbn [submitted].
    destruct (cursor_close w [prepared_statement]); [cbn; discriminate|].
    cbn [submitted].
    destruct (conn_close w [prepared_statement]); reflexivity. }
  destruct (main_trace w cfg fuel Hc Hp) as (_ & _ & _ & Hm).
  rewrite (main_prepared w cfg fuel Hc Hp) in *.
  unfold bind in *. rewrite window_loop_trace in *.
  destruct (run_windows_closed w (passes_made w cfg fuel (start_date cfg))
              prepared_state) as [Hcur Hconn].
  cbn [cursor_closed conn_closed prepared_state] in Hcur, Hconn.
  destruct (fst (window_loop w cfg fuel record_pass (start_date cfg) []))
    as [[]|e|].
  - pose proof (cleanup_closed w
                  (run_windows w (passes_made w cfg fuel (start_date cfg))
                               prepared_state)) as Hcl.
    destruct (cursor_close w _).
    + destruct Hcl as [_ ->]. rewrite Hconn. discriminate.
    + destruct Hcl as [-> _]. reflexivity.
  - cbn [snd]. rewrite Hconn. discriminate.
  - cbn [snd]. rewrite Hconn. discriminate.
Qed.

Lemma connection_closed_only_after_cursor_witness :
  cursor_closed (snd (main world_ok two_day_config 3 initial)) = true.
Proof.
  exact (connection_closed_only_after_cursor world_ok two_day_config 3
           eq_refl).
Defined.

(** X6. An exception that leaves [main] comes from one of two places: from
    [cursor.close()] or [conn.close()] in the [except] block of a failed
    preparation, or from the head of a pass of the loop. *)
Theorem escaping_exception_comes_from_head_or_close
  (w : World) (cfg : Config) (fuel : nat) (e : exn) :
  fst (main w cfg fuel initial) = Raise e ->
  (connect w = None /\
   exists e0, cursor_execute w [] prepared_statement = Some e0 /\
     (cursor_close w [prepared_statement] = Some e \/
      (cursor_close w [prepared_statement] = None /\
       conn_close w [prepared_statement] = Some e))) \/
  (connect w = None /\
   cursor_execute w [] prepared_statement = None /\
   window_iterator w cfg fuel (start_date cfg) = Raise e).
Proof.
  destruct (connect w) as [e0|] eqn:Hc.
  { rewrite (main_connect_fails w cfg fuel e0 Hc). discriminate. }
  destruct (cursor_execute w [] prepared_statement) as [e0|] eqn:Hp.
  { rewrite (main_prepare_fails w cfg fuel e0 Hc Hp).
    unfold bind, close_cursor, close_conn. cbn [submitted].
    intros H. left. split; [reflexivity|]. exists e0. split; [reflexivity|].
    destruct (cursor_close w [prepared_statement]) as [e1|].
    - cbn [fst] in H. injection H as ->. now left.
    - cbn [submitted] in H.
      destruct (conn_close w [prepared_statement]) as [e1|].
      + cbn [fst] in H. injection H as ->. now right.
      + discriminate. }
  destruct (main_trace w cfg fuel Hc Hp) as (_ & _ & _ & Hm).
  intros H. right. split; [reflexivity|]. split; [reflexivity|].
  destruct (window_iterator w cfg fuel (start_date cfg)) as [ps|e1|].
  - rewrite Hm in H. discriminate.
  - rewrite Hm in H. cbn [fst] in H. injection H as ->. reflexivity.
  - rewrite Hm in H. discriminate.
Qed.

Lemma escaping_exception_comes_from_head_or_close_witness :
  (connect world_prepare_and_close_fail = None /\
   exists e0,
     cursor_execute world_prepare_and_close_fail [] prepared_statement
     = Some e0 /\
     (cursor_close world_prepare_and_close_fail [prepared_statement]
      = Some (Exn "TrinoConnectionError" "connection reset") \/
      (cursor_close world_prepare_and_close_fail [prepared_statement] = None /\
       conn_close world_prepare_and_close_fail [prepared_statement]
       = Some (Exn "TrinoConnectionError" "connection reset")))) \/
  (connect world_prepare_and_close_fail = None /\
   cursor_execute world_prepare_and_close_fail [] prepared_statement = None /\
   window_iterator world_prepare_and_close_fail repo_config 366
                   (start_date repo_config)
   = Raise (Exn "TrinoConnectionError" "connection reset")).
Proof.
  exact (escaping_exception_comes_from_head_or_close
           world_prepare_and_close_fail repo_config 366
           (Exn "TrinoConnectionError" "connection reset") eq_refl).
Defined.

(** X7. With a stride of zero or less and [start_date < end_date] the loop
    does not come to its end, whatever the fuel: [main] does not return
    normally. *)
Theorem non_positive_stride_never_completes
  (w : World) (cfg : Config) (fuel : nat) :
  connect w = None ->
  cursor_execute w [] prepared_statement = None ->
  delta cfg <= 0 ->
  start_date cfg < end_date cfg ->
  (forall ps, window_iterator w cfg fuel (start_date cfg) <> Ok ps) /\
  fst (main w cfg fuel initial) <> Ok tt.
Proof.
  intros Hc Hp Hd Hlt.
  assert (Hno : forall ps, window_iterator w cfg fuel (start_date cfg) <> Ok ps).
  { intros ps. now apply window_iterator_backwards. }
  split; [exact Hno|].
  destruct (main_trace w cfg fuel Hc Hp) as (_ & _ & _ & Hm).
  destruct (window_iterator w cfg fuel (start_date cfg)) as [ps|e|].
  - destruct (Hno ps). reflexivity.
  - rewrite Hm. discriminate.
  - rewrite Hm. discriminate.
Qed.

Lemma non_positive_stride_never_completes_witness :
  fst (main world_ok negative_stride_config 5 initial) <> Ok tt.
Proof.
  apply (non_positive_stride_never_completes world_ok negative_stride_config 5
           eq_refl eq_refl).
  - vm_compute. discriminate.
  - vm_compute. reflexivity.
Defined.

(** X8. When the range is empty ([end_date <= start_date]) the loop makes
    no pass: the prepared statement is the only statement submitted, no
    file is written, and [main] returns through the closing block. *)
Theorem empty_range_makes_no_pass (w : World) (cfg : Config) (fuel : nat) :
  connect w = None ->
  cursor_execute w [] prepared_statement = None ->
  end_date cfg <= start_date cfg ->
  (0 < fuel)%nat ->
  window_iterator w cfg fuel (start_date cfg) = Ok [] /\
  fst (main w cfg fuel initial) = Ok tt /\
  submitted (snd (main w cfg fuel initial)) = [prepared_statement] /\
  written (snd (main w cfg fuel initial)) = [].
Proof.
  intros Hc Hp Hle Hf.
  assert (Hit : window_iterator w cfg fuel (start_date cfg) = Ok []).
  { destruct fuel as [|fuel]; [lia|]. rewrite window_iterator_step.
    replace (start_date cfg <? end_date cfg) with false; [reflexivity|].
    symmetry. apply Z.ltb_ge. exact Hle. }
  split; [exact Hit|].
  destruct (main_completes w cfg fuel [] Hc Hp Hit) as (s_end & -> & Hs & Hw & _).
  cbn [fst snd]. rewrite Hs, Hw. repeat split.
Qed.

Lemma empty_range_makes_no_pass_witness :
  submitted (snd (main world_ok empty_range_config 1 initial))
  = [prepared_statement] /\
  written (snd (main world_ok empty_range_config 1 initial)) = [].
Proof.
  refine (proj2 (proj2 (empty_range_makes_no_pass world_ok empty_range_config 1
                          eq_refl eq_refl _ _))).
  - vm_compute. discriminate.
  - apply Nat.ltb_lt. reflexivity.
Defined.



(** X10. [calculate_distance] reads the four coordinate cells in the order
    previous_latitude, previous_longitude, next_latitude, next_longitude:
    on a row that lacks one of them it raises the KeyError of the first
    one missing, and the geodesic is not asked. *)
Theorem missing_coordinate_is_a_key_error
  (w : World) (cols : list string) (row : list value)
  (before after : list string) (l : string) :
  coordinate_columns = before ++ l :: after ->
  (forall l', In l' before -> lookup_all cols row l' <> []) ->
  lookup_all cols row l = [] ->
  calculate_distance w cols row = inl (KeyError l).
Proof.
  intros Hsplit Hbefore Hl. unfold coordinate_columns in Hsplit.
  unfold calculate_distance, getitem.
  destruct before as [|b0 before].
  { injection Hsplit as <- _. now rewrite Hl. }
  injection Hsplit as <- Hsplit.
  pose proof (Hbefore "previous_latitude" (or_introl eq_refl)) as H0.
  destruct (lookup_all cols row "previous_latitude") as [|v0 [|v0' r0]];
    [congruence| |];
  (destruct before as [|b1 before];
   [injection Hsplit as <- _; now rewrite Hl|];
   injection Hsplit as <- Hsplit;
   pose proof (Hbefore "previous_longitude" (or_intror (or_introl eq_refl)))
     as H1;
   destruct (lookup_all cols row "previous_longitude") as [|v1 [|v1' r1]];
     [congruence| |];
   (destruct before as [|b2 before];
    [injection Hsplit as <- _; now rewrite Hl|];
    injection Hsplit as <- Hsplit;
    pose proof (Hbefore "next_latitude"
                  (or_intror (or_intror (or_introl eq_refl)))) as H2;
    destruct (lookup_all cols row "next_latitude") as [|v2 [|v2' r2]];
      [congruence| |];
    (destruct before as [|b3 before];
     [injection Hsplit as <- _; now rewrite Hl|];
     destruct before; discriminate Hsplit))).
Qed.

Lemma missing_coordinate_is_a_key_error_witness :
  calculate_distance world_ok columns_without_next_latitude
                     row_without_next_latitude
  = inl (KeyError "next_latitude").
Proof.
  apply (missing_coordinate_is_a_key_error world_ok
           columns_without_next_latitude row_without_next_latitude
           ["previous_latitude"; "previous_longitude"] ["next_longitude"]).
  - reflexivity.
  - intros l' [<- | [<- | []]]; vm_compute; discriminate.
  - reflexivity.
Defined.
